(** * Mercury DNS decoder ([src/dns.c]): shallow embedding and verification

    The C code walks a DNS message through raw [char] pointers.  Here a
    pointer into the packet is its byte offset from the first byte of the
    packet, the packet is a [list Z] of bytes in [0, 255], and every
    dereference goes through [load], which reports a read outside the
    packet as a fault instead of returning a byte.  The name buffer
    [char name[DNS_OUTNAME_LEN]] is a [list Z] of the array's size and
    every write goes through [store], which reports a write outside the
    array as a fault.  [ssize_t] values are unbounded integers (the
    decoder never gets near 2^63); [unsigned int] arithmetic wraps
    modulo 2^32 and [unsigned char] arithmetic modulo 2^8, written out
    where the code relies on it.  Whether plain [char] is signed is left
    to the platform by C and is a parameter of the decoder.

    A C function that takes pointers to its caller's variables returns,
    here, the values it leaves in them.  The loops run on fuel; the
    termination lemmas show that the fuel given at the entry points is
    never exhausted. *)

From Stdlib Require Import String Ascii.
From Stdlib Require Import ZArith List Bool Lia DecimalString HexadecimalString.
Import ListNotations.
Open Scope Z_scope.

(** ** Error codes, faults and outcomes *)

(** [enum dns_err]; the enumerator that shares the name of the type is
    [dns_err_err] here. *)
Inductive dns_err : Type :=
| dns_ok
| dns_err_err
| dns_err_label_too_long
| dns_err_offset_too_long
| dns_err_malformed
| dns_err_label_malformed
| dns_err_bad_rdlength
| dns_err_unprintable
| dns_err_too_many
| dns_err_unterminated
| dns_err_rdata_too_long.

Definition dns_err_code (e : dns_err) : Z :=
  match e with
  | dns_ok => 0
  | dns_err_err => 1
  | dns_err_label_too_long => 2
  | dns_err_offset_too_long => 3
  | dns_err_malformed => 4
  | dns_err_label_malformed => 5
  | dns_err_bad_rdlength => 6
  | dns_err_unprintable => 7
  | dns_err_too_many => 8
  | dns_err_unterminated => 9
  | dns_err_rdata_too_long => 10
  end.

Definition dns_err_eqb (a b : dns_err) : bool := dns_err_code a =? dns_err_code b.

(** What C leaves undefined: an access outside the object pointed into. *)
Inductive fault : Type :=
| read_out_of_bounds (off : Z)
| write_out_of_bounds (idx : Z).

(** The outcome of running a piece of the decoder: it returns a value, it
    performs an undefined access, or the model ran out of loop fuel (the
    totality lemmas show that the entry points never do). *)
Inductive outcome (A : Type) : Type :=
| Returns (a : A)
| Faults (f : fault)
| OutOfFuel.

Arguments Returns {A} a.
Arguments Faults {A} f.
Arguments OutOfFuel {A}.

Definition bind {A B : Type} (m : outcome A) (k : A -> outcome B) : outcome B :=
  match m with
  | Returns a => k a
  | Faults f => Faults f
  | OutOfFuel => OutOfFuel
  end.

Notation "x <- m ;; k" := (bind m (fun x => k))
  (at level 61, m at next level, right associativity).
Notation "' p <- m ;; k" := (bind m (fun x => match x with p => k end))
  (at level 61, p pattern, m at next level, right associativity).

(** ** Memory *)

Definition in_range (i n : Z) : bool := (0 <=? i) && (i <? n).

(** Dereferencing a pointer at offset [off] of the packet. *)
Definition load (pkt : list Z) (off : Z) : outcome Z :=
  if in_range off (Z.of_nat (length pkt))
  then Returns (nth (Z.to_nat off) pkt 0)
  else Faults (read_out_of_bounds off).

Fixpoint update (l : list Z) (n : nat) (v : Z) : list Z :=
  match l, n with
  | [], _ => []
  | _ :: t, O => v :: t
  | h :: t, S n' => h :: update t n' v
  end.

(** [buf[idx] = v] for a [char] array [buf]. *)
Definition store (buf : list Z) (idx v : Z) : outcome (list Z) :=
  if in_range idx (Z.of_nat (length buf))
  then Returns (update buf (Z.to_nat idx) v)
  else Faults (write_out_of_bounds idx).

(** [ntohs] of the [uint16_t] at offset [off]: two bytes, big endian. *)
Definition load16 (pkt : list Z) (off : Z) : outcome Z :=
  hi <- load pkt off ;;
  lo <- load pkt (off + 1) ;;
  Returns (hi * 256 + lo).

(** [ntohl] of the [uint32_t] at offset [off]. *)
Definition load32 (pkt : list Z) (off : Z) : outcome Z :=
  hi <- load16 pkt off ;;
  lo <- load16 pkt (off + 2) ;;
  Returns (hi * 65536 + lo).

(** ** Constants and macros *)

Definition DNS_OUTNAME_LEN : Z := 256.
Definition DNS_MAX_RECURSION_DEPTH : Z := 20.

Definition sizeof_dns_hdr : Z := 12.
Definition sizeof_dns_question : Z := 4.
Definition sizeof_dns_rr : Z := 10.
Definition sizeof_in_addr : Z := 4.
Definition sizeof_in6_addr : Z := 16.
Definition sizeof_uint16 : Z := 2.

Definition type_A : Z := 1.
Definition type_NS : Z := 2.
Definition type_CNAME : Z := 5.
Definition type_SOA : Z := 6.
Definition type_PTR : Z := 12.
Definition type_MX : Z := 15.
Definition type_TXT : Z := 16.
Definition type_AAAA : Z := 28.
Definition class_IN : Z := 1.

(** [#define char_is_label(c) (((c) & 0xC0) == 0)] *)
Definition char_is_label (c : Z) : bool := Z.land c 192 =? 0.

(** [#define char_is_offset(c) (((c) & 0xC0) == 0xC0)] *)
Definition char_is_offset (c : Z) : bool := Z.land c 192 =? 192.

(** [(unsigned int) x] and [(unsigned char) x]. *)
Definition to_uint (x : Z) : Z := x mod 4294967296.
Definition to_uchar (x : Z) : Z := x mod 256.

(** [isprint] in the C locale, on the byte [b]. *)
Definition isprint (b : Z) : bool := (32 <=? b) && (b <=? 126).

(** [static inline char printable(char c)]; 42 is ['*']. *)
Definition printable (b : Z) : Z := if isprint b then b else 42.

(** ** Output text *)

(** Modelled from the spec: [struct buffer_stream], declared in
    [buffer_stream.h] and not in [dns.c].  The text builder appends
    formatted fragments and never fails the caller; here it is the list of
    the fragments appended so far, oldest first, and its capacity (the
    silent truncation on overflow) is left out. *)
Definition buffer_stream : Type := list string.

(** Modelled from the spec: [buf.strncpy] and [buf.snprintf], which append
    one formatted fragment. *)
Definition emit (buf : buffer_stream) (fragment : string) : buffer_stream :=
  buf ++ [fragment].

Definition render (buf : buffer_stream) : string := String.concat EmptyString buf.

(** the double-quote character, and a quoted word *)
Definition dq : string := String (ascii_of_nat 34) EmptyString.
Definition quoted (s : string) : string := (dq ++ s ++ dq)%string.

(** [%d] and [%u] *)
Definition fmt_d (z : Z) : string := DecimalString.NilZero.string_of_int (Z.to_int z).
(** [%x] *)
Definition fmt_x (z : Z) : string :=
  HexadecimalString.NilZero.string_of_uint (N.to_hex_uint (Z.to_N z)).

(** [%s] of a [char] pointer: the bytes up to the first NUL. *)
Fixpoint cstring_of (bytes : list Z) : string :=
  match bytes with
  | [] => EmptyString
  | b :: t => if b =? 0 then EmptyString
              else String (ascii_of_nat (Z.to_nat b)) (cstring_of t)
  end.

Definition cstring_at (buf : list Z) (idx : Z) : string :=
  cstring_of (skipn (Z.to_nat idx) buf).

(** the fragments of [dns.c] *)
Definition frag_malformed (len : Z) : string :=
  (quoted "malformed" ++ ":" ++ fmt_d len)%string.
Definition frag_malformed_closed (len : Z) : string :=
  (quoted "malformed" ++ ":" ++ fmt_d len ++ "}]}")%string.
Definition frag_name (key name : string) : string :=
  (quoted key ++ ":" ++ quoted name)%string.
Definition frag_question (qr : string) (name : string) : string :=
  (quoted (qr ++ "n") ++ ":" ++ quoted name ++ ",")%string.
Definition frag_rc (rcode : Z) : string :=
  (quoted "rc" ++ ":" ++ fmt_d rcode ++ "," ++ quoted "rr" ++ ":[")%string.
Definition frag_generic (type rclass rdlength : Z) : string :=
  (quoted "type" ++ ":" ++ quoted (fmt_x type) ++ "," ++
   quoted "class" ++ ":" ++ quoted (fmt_x rclass) ++ "," ++
   quoted "rdlength" ++ ":" ++ fmt_d rdlength)%string.
Definition frag_ttl (ttl : Z) : string := ("," ++ quoted "ttl" ++ ":" ++ fmt_d ttl ++ "}")%string.
Definition frag_txt : string := frag_name "txt" "NYI".

(** [inet_ntop(AF_INET, ...)] on four address bytes *)
Definition inet_ntop4 (a b c d : Z) : string :=
  (fmt_d a ++ "." ++ fmt_d b ++ "." ++ fmt_d c ++ "." ++ fmt_d d)%string.

(** ** Cursor primitives

    A cursor is the pair of [data] and [len] behind the two pointer
    arguments; each primitive returns the
    error code together with the cursor it leaves behind. *)

(** [data_advance]: the length is compared as [unsigned int]. *)
Definition data_advance (data len size : Z) : dns_err * Z * Z :=
  let tlen := to_uint len in
  if tlen <? size then (dns_err_malformed, data, len)
  else (dns_ok, data + size, len - size).

(** [uint16_parse]; on success [*x] is the old [*data]. *)
Definition uint16_parse (data len : Z) : dns_err * Z * Z * Z :=
  if len <? sizeof_uint16 then (dns_err_malformed, data, data, len)
  else (dns_ok, data, data + sizeof_uint16, len - sizeof_uint16).

(** [dns_question_parse] *)
Definition dns_question_parse (data len : Z) : dns_err * Z * Z :=
  if len <? sizeof_dns_question then (dns_err_malformed, data, len)
  else (dns_ok, data + sizeof_dns_question, len - sizeof_dns_question).

(** ** The decoder *)

Section Decoder.

(** Whether plain [char] is signed (x86) or unsigned (ARM): the value of
    [*c] for the byte [b]. *)
Variable char_signed : bool.

(** [inet_ntop(AF_INET6, ...)] of the C library, on sixteen address
    bytes. *)
Variable inet_ntop6 : list Z -> string.

Definition char_val (b : Z) : Z :=
  if char_signed && (128 <=? b) then b - 256 else b.

(** What a call of a name decoder leaves behind: the returned code, the
    caller's [*name] and [*len], the name buffer, and the final value of
    the local [outname] (an index into the buffer), which the caller
    cannot see but which counts the bytes appended. *)
Record name_result : Type := mk_name_result {
  nr_err : dns_err;
  nr_name : Z;
  nr_len : Z;
  nr_buf : list Z;
  nr_outname : Z
}.

(** [for (i=1; i<jump; i++) *outname++ = printable(c[i]);] with [n]
    iterations left and the loop index at [i]. *)
Fixpoint copy_label (pkt : list Z) (c : Z) (n : nat) (i : Z)
         (buf : list Z) (outname : Z) : outcome (list Z * Z) :=
  match n with
  | O => Returns (buf, outname)
  | S n' =>
      b <- load pkt (c + i) ;;
      buf' <- store buf outname (printable b) ;;
      copy_label pkt c n' (i + 1) buf' (outname + 1)
  end.

Section Loops.
Variable pkt : list Z.
Variable hdr : Z.
(** the recursive call [f(hdr, &offsetname, &offsetlen, outname,
    outname_len, recursion_depth + 1)] *)
Variable recurse : Z -> Z -> list Z -> Z -> Z -> outcome name_result.
Variable recursion_depth : Z.
Variable terminus : Z.
Variable offsetlen : Z.

(** the offset branch, shared by both decoders *)
Definition follow_offset (name len : Z) (buf : list Z)
           (outname outname_len : Z) : outcome name_result :=
  match uint16_parse name len with
  | (dns_ok, offset, name', len') =>
      v <- load16 pkt offset ;;
      let offsetname := hdr + Z.land v 16383 in
      let offsetlen' := offsetlen - Z.land v 16383 in
      if recursion_depth >=? DNS_MAX_RECURSION_DEPTH
      then Returns (mk_name_result dns_err_offset_too_long name' len' buf outname)
      else
        r <- recurse offsetname offsetlen' buf outname outname_len ;;
        Returns (mk_name_result (nr_err r) name' len' (nr_buf r) (nr_outname r))
  | (_, _, name', len') =>
      Returns (mk_name_result dns_err_offset_too_long name' len' buf outname)
  end.

(** the [while] loop of [dns_header_parse_name] *)
Fixpoint name_loop (fuel : nat) (c name len : Z) (buf : list Z)
         (outname outname_len : Z) : outcome name_result :=
  if (len >? 0) && (outname <? terminus) then
    match fuel with
    | O => OutOfFuel
    | S fuel' =>
        b <- load pkt c ;;
        let ch := char_val b in
        if char_is_label ch then
          if (ch <? 64) && (len >? ch) then
            if ch =? 0 then
              buf' <- store buf outname 0 ;;
              Returns (mk_name_result dns_ok (c + 1) len buf' outname)
            else
              let jump := to_uchar (ch + 1) in
              buf1 <- store buf outname 46 ;;
              '(buf2, outname2) <-
                copy_label pkt c (Z.to_nat (jump - 1)) 1 buf1 (outname + 1) ;;
              name_loop fuel' (c + jump) (name + jump) (len - jump) buf2
                        outname2 (to_uint (outname_len - jump))
          else Returns (mk_name_result dns_err_label_too_long name len buf outname)
        else if char_is_offset ch then
          follow_offset name len buf outname outname_len
        else Returns (mk_name_result dns_err_label_malformed name len buf outname)
    end
  else Returns (mk_name_result dns_err_unterminated name len buf outname).

(** the [while] loop of [dns_header_parse_mxname] *)
Fixpoint mxname_loop (fuel : nat) (processed_preference : bool)
         (c name len : Z) (buf : list Z)
         (outname outname_len : Z) : outcome name_result :=
  if (len >? 0) && (outname <? terminus) then
    match fuel with
    | O => OutOfFuel
    | S fuel' =>
        b <- load pkt c ;;
        if char_is_label (char_val b) then
          let c := if processed_preference then c else c + 2 in
          let len := if processed_preference then len else len - 2 in
          b <- load pkt c ;;
          let ch := char_val b in
          if (ch <? 64) && (len >? ch) then
            if ch =? 0 then
              buf' <- store buf outname 0 ;;
              Returns (mk_name_result dns_ok (c + 1) len buf' outname)
            else
              let jump := to_uchar (ch + 1) in
              buf1 <- store buf outname 46 ;;
              '(buf2, outname2) <-
                copy_label pkt c (Z.to_nat (jump - 1)) 1 buf1 (outname + 1) ;;
              mxname_loop fuel' true (c + jump) (name + jump) (len - jump) buf2
                          outname2 (to_uint (outname_len - jump))
          else Returns (mk_name_result dns_err_label_too_long name len buf outname)
        else if char_is_offset (char_val b) then
          follow_offset name len buf outname outname_len
        else Returns (mk_name_result dns_err_label_malformed name len buf outname)
    end
  else Returns (mk_name_result dns_err_unterminated name len buf outname).

End Loops.

(** [dns_header_parse_name], with [k] bounding the nesting of calls. *)
Fixpoint parse_name_rec (k : nat) (pkt : list Z) (hdr name len : Z)
         (buf : list Z) (outname outname_len recursion_depth : Z)
  : outcome name_result :=
  match k with
  | O => OutOfFuel
  | S k' =>
      let terminus := outname + outname_len in
      let c := name in
      let offsetlen := (name - hdr) + len in
      if (len <=? 0) || (outname >? terminus) || (outname_len <? 2)
      then Returns (mk_name_result dns_err_unterminated name len buf outname)
      else
        buf1 <- store buf (outname + 1) 0 ;;
        name_loop pkt hdr
          (fun offsetname offsetlen' buf' outname' outname_len' =>
             parse_name_rec k' pkt hdr offsetname offsetlen' buf' outname'
                            outname_len' (recursion_depth + 1))
          recursion_depth terminus offsetlen
          (Z.to_nat len) c name len buf1 outname outname_len
  end.

(** [dns_header_parse_mxname], with [k] bounding the nesting of calls. *)
Fixpoint parse_mxname_rec (k : nat) (pkt : list Z) (hdr name len : Z)
         (buf : list Z) (outname outname_len recursion_depth : Z)
  : outcome name_result :=
  match k with
  | O => OutOfFuel
  | S k' =>
      let terminus := outname + outname_len in
      let c := name in
      let offsetlen := (name - hdr) + len in
      if (len <=? 0) || (outname >? terminus) || (outname_len <? 2)
      then Returns (mk_name_result dns_err_unterminated name len buf outname)
      else
        buf1 <- store buf (outname + 1) 0 ;;
        mxname_loop pkt hdr
          (fun offsetname offsetlen' buf' outname' outname_len' =>
             parse_mxname_rec k' pkt hdr offsetname offsetlen' buf' outname'
                              outname_len' (recursion_depth + 1))
          recursion_depth terminus offsetlen
          (Z.to_nat len) false c name len buf1 outname outname_len
  end.

(** The nesting allowed by [DNS_MAX_RECURSION_DEPTH] from the given
    depth: one call, plus one per jump still permitted. *)
Definition call_budget (recursion_depth : Z) : nat :=
  S (Z.to_nat (DNS_MAX_RECURSION_DEPTH - recursion_depth)).

Definition dns_header_parse_name (pkt : list Z) (hdr name len : Z)
           (buf : list Z) (outname outname_len recursion_depth : Z)
  : outcome name_result :=
  parse_name_rec (call_budget recursion_depth) pkt hdr name len buf
                 outname outname_len recursion_depth.

Definition dns_header_parse_mxname (pkt : list Z) (hdr name len : Z)
           (buf : list Z) (outname outname_len recursion_depth : Z)
  : outcome name_result :=
  parse_mxname_rec (call_budget recursion_depth) pkt hdr name len buf
                   outname outname_len recursion_depth.



(** *** Record parsers *)

(** [dns_rr_parse]: the code, the record pointer [*r], the cursor and
    [*rdlength]. *)
Definition dns_rr_parse (pkt : list Z) (rr data len rdlength : Z)
  : outcome (dns_err * Z * Z * Z * Z) :=
  if len <? sizeof_dns_rr then Returns (dns_err_malformed, rr, data, len, rdlength)
  else
    let rr := data in
    rdl <- load16 pkt (rr + 8) ;;
    if len <? rdl then Returns (dns_err_rdata_too_long, rr, data, len, rdlength)
    else Returns (dns_ok, rr, data + sizeof_dns_rr, len - sizeof_dns_rr, rdl).

(** [dns_addr_parse]: the code, the address pointer and the cursor. *)
Definition dns_addr_parse (data len rdlength : Z) : dns_err * Z * Z * Z :=
  if len <? sizeof_in_addr then (dns_err_malformed, data, data, len)
  else if negb (rdlength =? sizeof_in_addr) then (dns_err_bad_rdlength, data, data, len)
  else (dns_ok, data, data + sizeof_in_addr, len - sizeof_in_addr).

(** [dns_ipv6_addr_parse] *)
Definition dns_ipv6_addr_parse (data len rdlength : Z) : dns_err * Z * Z * Z :=
  if len <? sizeof_in6_addr then (dns_err_malformed, data, data, len)
  else if negb (rdlength =? sizeof_in6_addr) then (dns_err_bad_rdlength, data, data, len)
  else (dns_ok, data, data + sizeof_in6_addr, len - sizeof_in6_addr).

(** the [n] bytes from offset [off] on *)
Fixpoint load_bytes (pkt : list Z) (off : Z) (n : nat) : outcome (list Z) :=
  match n with
  | O => Returns []
  | S n' =>
      b <- load pkt off ;;
      t <- load_bytes pkt (off + 1) n' ;;
      Returns (b :: t)
  end.

(** *** The record payload dispatcher *)

(** What [dns_rdata_print] leaves behind: the code, the cursor behind
    [r] and [len], and the text builder. *)
Record rdata_result : Type := mk_rdata_result {
  rd_err : dns_err;
  rd_r : Z;
  rd_len : Z;
  rd_buf : buffer_stream
}.

(** the local [char name[DNS_OUTNAME_LEN]]; its initial bytes are
    indeterminate in C and zero here *)
Definition fresh_name : list Z := repeat 0 (Z.to_nat DNS_OUTNAME_LEN).

Definition is_name_type (type : Z) : bool :=
  (type =? type_SOA) || (type =? type_PTR) || (type =? type_CNAME)
  || (type =? type_NS) || (type =? type_MX).

Definition tname (type : Z) : string :=
  if type =? type_SOA then "soa"
  else if type =? type_PTR then "ptr"
  else if type =? type_NS then "ns"
  else if type =? type_MX then "mx"
  else "cname".

Definition dns_rdata_print (pkt : list Z) (rh rr r len : Z) (buf : buffer_stream)
  : outcome rdata_result :=
  rclass <- load16 pkt (rr + 2) ;;
  type <- load16 pkt rr ;;
  if rclass =? class_IN then
    if type =? type_A then
      rdlength <- load16 pkt (rr + 8) ;;
      match dns_addr_parse r len rdlength with
      | (dns_ok, addr, r', len') =>
          a <- load_bytes pkt addr 4 ;;
          Returns (mk_rdata_result dns_ok r' len'
                     (emit buf (frag_name "a"
                        (inet_ntop4 (nth 0 a 0) (nth 1 a 0) (nth 2 a 0) (nth 3 a 0)))))
      | (err, _, r', len') => Returns (mk_rdata_result err r' len' buf)
      end
    else if type =? type_AAAA then
      rdlength <- load16 pkt (rr + 8) ;;
      match dns_ipv6_addr_parse r len rdlength with
      | (dns_ok, addr, r', len') =>
          a <- load_bytes pkt addr 16 ;;
          Returns (mk_rdata_result dns_ok r' len'
                     (emit buf (frag_name "aaaa" (inet_ntop6 a))))
      | (err, _, r', len') => Returns (mk_rdata_result err r' len' buf)
      end
    else if is_name_type type then
      nr <- (if type =? type_MX
             then dns_header_parse_mxname pkt rh r len fresh_name 0 (DNS_OUTNAME_LEN - 1) 0
             else dns_header_parse_name pkt rh r len fresh_name 0 (DNS_OUTNAME_LEN - 1) 0) ;;
      let r := nr_name nr in
      let len := nr_len nr in
      if negb (dns_err_eqb (nr_err nr) dns_ok)
      then Returns (mk_rdata_result (nr_err nr) r len buf)
      else
        let buf := emit buf (frag_name (tname type) (cstring_at (nr_buf nr) 1)) in
        if len - 1 >? 0 then
          match data_advance r len (to_uint (len - 1)) with
          | (dns_ok, r', len') => Returns (mk_rdata_result dns_ok r' len' buf)
          | (err, r', len') => Returns (mk_rdata_result err r' len' buf)
          end
        else Returns (mk_rdata_result dns_ok r len buf)
    else if type =? type_TXT then
      Returns (mk_rdata_result dns_ok r len (emit buf frag_txt))
    else
      rdlength <- load16 pkt (rr + 8) ;;
      match data_advance r len rdlength with
      | (dns_ok, r', len') =>
          Returns (mk_rdata_result dns_ok r' len' (emit buf (frag_generic type rclass rdlength)))
      | (err, r', len') => Returns (mk_rdata_result err r' len' buf)
      end
  else
    rdlength <- load16 pkt (rr + 8) ;;
    match data_advance r len rdlength with
    | (dns_ok, r', len') =>
        Returns (mk_rdata_result dns_ok r' len' (emit buf (frag_generic type rclass rdlength)))
    | (err, r', len') => Returns (mk_rdata_result err r' len' buf)
    end.

(** *** The message driver *)

(** The locals of [dns_print_packet] that outlive one loop iteration,
    and the text builder. *)
Record driver_state : Type := mk_driver_state {
  ds_err : dns_err;
  ds_r : Z;
  ds_len : Z;
  ds_rdlength : Z;
  ds_comma : Z;
  ds_name : list Z;
  ds_rr : Z;
  ds_buf : buffer_stream
}.

Definition failed (e : dns_err) : bool := negb (dns_err_eqb e dns_ok).

(** the body of [while (qdcount-- > 0)] *)
Definition question_record (pkt : list Z) (rh : Z) (qr : string) (s : driver_state)
  : outcome driver_state :=
  nr <- dns_header_parse_name pkt rh (ds_r s) (ds_len s) (ds_name s) 0
                              (DNS_OUTNAME_LEN - 1) 0 ;;
  let r := nr_name nr in
  let len := nr_len nr in
  let name := nr_buf nr in
  if failed (nr_err nr) then
    Returns (mk_driver_state (nr_err nr) r len (ds_rdlength s) (ds_comma s) name
               (ds_rr s) (emit (ds_buf s) (frag_malformed len)))
  else
    match dns_question_parse r len with
    | (dns_ok, r, len) =>
        Returns (mk_driver_state dns_ok r len (ds_rdlength s) (ds_comma s) name
                   (ds_rr s) (emit (ds_buf s) (frag_question qr (cstring_at name 1))))
    | (err, r, len) =>
        Returns (mk_driver_state err r len (ds_rdlength s) (ds_comma s) name
                   (ds_rr s) (emit (ds_buf s) (frag_malformed len)))
    end.

(** the body shared by [while (ancount-- > 0)], [while (nscount-- > 0)]
    and [while (arcount-- > 0)] *)
Definition rr_record (pkt : list Z) (rh : Z) (s : driver_state) : outcome driver_state :=
  let buf := if negb (ds_comma s =? 0) then emit (ds_buf s) "," else ds_buf s in
  let comma := to_uint (ds_comma s + 1) in
  let buf := emit buf "{" in
  nr <- dns_header_parse_name pkt rh (ds_r s) (ds_len s) (ds_name s) 0
                              (DNS_OUTNAME_LEN - 1) 0 ;;
  let r := nr_name nr in
  let len := nr_len nr in
  let name := nr_buf nr in
  if failed (nr_err nr) then
    Returns (mk_driver_state (nr_err nr) r len (ds_rdlength s) comma name (ds_rr s)
               (emit buf (frag_malformed len)))
  else
    '(err, rr, r, len, rdlength) <- dns_rr_parse pkt (ds_rr s) r len (ds_rdlength s) ;;
    if failed err then
      Returns (mk_driver_state err r len rdlength comma name rr
                 (emit buf (frag_malformed len)))
    else
      rd <- dns_rdata_print pkt rh rr r rdlength buf ;;
      let r := rd_r rd in
      let rdlength := rd_len rd in
      if failed (rd_err rd) then
        Returns (mk_driver_state (rd_err rd) r len rdlength comma name rr
                   (emit (rd_buf rd) (frag_malformed_closed len)))
      else
        let len := len - rdlength in
        let r := if rdlength >? 1 then r + (rdlength - 1) else r in
        let rdlength := if rdlength >? 1 then 1 else rdlength in
        ttl <- load32 pkt (rr + 4) ;;
        Returns (mk_driver_state dns_ok r len rdlength comma name rr
                   (emit (rd_buf rd) (frag_ttl ttl))).

(** a [while (count-- > 0)] loop that returns from the function as soon
    as one record fails *)
Fixpoint records (body : driver_state -> outcome driver_state) (count : nat)
         (s : driver_state) : outcome driver_state :=
  match count with
  | O => Returns s
  | S count' =>
      s' <- body s ;;
      if failed (ds_err s') then Returns s' else records body count' s'
  end.

(** [memset(name, 0x00, DNS_OUTNAME_LEN)] and, between the record
    sections, [if (rdlength > 1) r += (rdlength - 1)] *)
Definition clear_name (s : driver_state) : driver_state :=
  mk_driver_state (ds_err s) (ds_r s) (ds_len s) (ds_rdlength s) (ds_comma s)
                  fresh_name (ds_rr s) (ds_buf s).

Definition between_sections (s : driver_state) : driver_state :=
  mk_driver_state (ds_err s)
                  (if ds_rdlength s >? 1 then ds_r s + (ds_rdlength s - 1) else ds_r s)
                  (ds_len s) (ds_rdlength s) (ds_comma s)
                  fresh_name (ds_rr s) (ds_buf s).

Definition say (s : driver_state) (fragment : string) : driver_state :=
  mk_driver_state (ds_err s) (ds_r s) (ds_len s) (ds_rdlength s) (ds_comma s)
                  (ds_name s) (ds_rr s) (emit (ds_buf s) fragment).

(** [dns_print_packet]; the packet pointer [dns_pkt] is offset 0, and
    the result is the state at the [return] that was taken. *)
Definition dns_print_packet (pkt : list Z) (pkt_len : Z) (buf : buffer_stream)
  : outcome driver_state :=
  let rh := 0 in
  let buf := emit buf "{" in
  if pkt_len <? sizeof_dns_hdr then
    Returns (mk_driver_state dns_ok 0 0 0 0 fresh_name 0
               (emit buf (frag_malformed pkt_len)))
  else
    let len := pkt_len in
    let r := 0 in
    flags <- load16 pkt (rh + 2) ;;
    let flags_rcode := Z.land flags 15 in
    let flags_qr := to_uchar (Z.shiftr flags 15) in
    let qr := if flags_qr =? 0 then "q"%string else "r"%string in
    let len := len - 12 in
    let r := r + 12 in
    qdcount <- load16 pkt (rh + 4) ;;
    if qdcount >? 1 then
      Returns (mk_driver_state dns_err_too_many r len 0 0 fresh_name 0
                 (emit buf (frag_malformed len)))
    else
      s <- records (question_record pkt rh qr) (Z.to_nat qdcount)
                   (mk_driver_state dns_ok r len 0 0 fresh_name 0 buf) ;;
      if failed (ds_err s) then Returns s
      else
        let s := say s (frag_rc flags_rcode) in
        ancount <- load16 pkt (rh + 6) ;;
        let s := mk_driver_state (ds_err s) (ds_r s) (ds_len s) (ds_rdlength s) 0
                                 fresh_name (ds_rr s) (ds_buf s) in
        s <- records (rr_record pkt rh) (Z.to_nat ancount) s ;;
        if failed (ds_err s) then Returns s
        else
          nscount <- load16 pkt (rh + 8) ;;
          s <- records (rr_record pkt rh) (Z.to_nat nscount) (between_sections s) ;;
          if failed (ds_err s) then Returns s
          else
            arcount <- load16 pkt (rh + 10) ;;
            s <- records (rr_record pkt rh) (Z.to_nat arcount) (between_sections s) ;;
            if failed (ds_err s) then Returns s
            else Returns (say s "]}").

(** [write_dns_server_data]: the whole buffer is handed to the driver. *)
Definition write_dns_server_data (data : list Z) (buf : buffer_stream)
  : outcome driver_state :=
  dns_print_packet data (Z.of_nat (length data)) buf.

End Decoder.

(** ** Shape of the emitted text

    A necessary condition for the text to be a well-formed document:
    outside string literals every closing bracket matches the most recent
    open one, and nothing is left open at the end. *)

Inductive bracket : Type := brace | square.

Fixpoint brackets_closed (text : string) (in_string : bool) (open : list bracket) : bool :=
  match text with
  | EmptyString => negb in_string && match open with [] => true | _ => false end
  | String a rest =>
      let n := nat_of_ascii a in
      if in_string then brackets_closed rest (negb (Nat.eqb n 34)) open
      else if Nat.eqb n 34 then brackets_closed rest true open
      else if Nat.eqb n 123 then brackets_closed rest false (brace :: open)
      else if Nat.eqb n 91 then brackets_closed rest false (square :: open)
      else if Nat.eqb n 125 then
        match open with
        | brace :: open' => brackets_closed rest false open'
        | _ => false
        end
      else if Nat.eqb n 93 then
        match open with
        | square :: open' => brackets_closed rest false open'
        | _ => false
        end
      else brackets_closed rest false open
  end.

Definition well_bracketed (text : string) : bool := brackets_closed text false [].

(** ** Vocabulary of the statements

    What follows is not taken from [dns.c]: it names the inputs and the
    results that the theorems speak about. *)

Definition zlength {A : Type} (l : list A) : Z := Z.of_nat (length l).

(** a label as RFC 1035 has it: between 1 and 63 bytes *)
Definition label_ok (l : list Z) : Prop := (1 <= length l <= 63)%nat.

(** the wire form of a name without compression: each label behind its
    length byte, then the zero byte *)
Fixpoint wire (labels : list (list Z)) : list Z :=
  match labels with
  | [] => [0]
  | l :: t => Z.of_nat (length l) :: l ++ wire t
  end.

(** its text form in the name buffer: a dot before each label, bytes that
    do not print replaced *)
Fixpoint dotted (labels : list (list Z)) : list Z :=
  match labels with
  | [] => []
  | l :: t => 46 :: map printable l ++ dotted t
  end.

(** the name buffer after a successful decode of [labels] at [outname]:
    the zero written at [outname + 1] on entry, the text, its NUL *)
Definition decoded_buffer (buf : list Z) (outname : Z) (labels : list (list Z)) : list Z :=
  let buf1 := update buf (Z.to_nat (outname + 1)) 0 in
  firstn (Z.to_nat outname) buf1 ++ dotted labels
    ++ 0 :: skipn (S (length (dotted labels))) (skipn (Z.to_nat outname) buf1).

(** the run was not cut short by the fuel of the model *)
Definition terminates {A : Type} (o : outcome A) : Prop := o <> OutOfFuel.

(** the target of the compression pointer at offset [p], if the two bytes
    there are one *)
Definition pointer_at (char_signed : bool) (pkt : list Z) (p : Z) : option Z :=
  match load pkt p, load pkt (p + 1) with
  | Returns hi, Returns lo =>
      if negb (char_is_label (char_val char_signed hi))
         && char_is_offset (char_val char_signed hi)
      then Some (Z.land (hi * 256 + lo) 16383)
      else None
  | _, _ => None
  end.

(** where [jumps] pointers lead from offset [p] in a message of [total]
    bytes, each pointer lying wholly inside the message *)
Fixpoint follow (char_signed : bool) (pkt : list Z) (total : Z) (jumps : nat) (p : Z)
  : option Z :=
  match jumps with
  | O => Some p
  | S jumps' =>
      match pointer_at char_signed pkt p with
      | Some target =>
          if p + 2 <=? total then follow char_signed pkt total jumps' target else None
      | None => None
      end
  end.

(** what the caller of a decoder sees once the call it made at a pointer
    returns [r]: the code and the buffer of [r], its own cursor moved over
    the two pointer bytes *)
Definition after_jump (p len : Z) (r : name_result) : name_result :=
  mk_name_result (nr_err r) (p + 2) (len - 2) (nr_buf r) (nr_outname r).

(** ** Test vectors *)

(** a stand-in for the C library's IPv6 printer *)
Definition ip6_text (_ : list Z) : string := "::"%string.

(** a label of [n] letters [a] *)
Definition label_of (n : nat) : list Z := Z.of_nat n :: repeat 97 n.

(** five labels of 63, 63, 63, 61 and 63 letters and the terminator: 319
    bytes on the wire, 318 bytes of dotted text *)
Definition overlong_name : list Z :=
  label_of 63 ++ label_of 63 ++ label_of 63 ++ label_of 61 ++ label_of 63 ++ [0].

(** a query whose question carries [overlong_name] *)
Definition overlong_query : list Z :=
  [0; 1; 1; 0; 0; 1; 0; 0; 0; 0; 0; 0] ++ overlong_name ++ [0; 1; 0; 1].

(** the code and the cursor of a name decoder's result *)
Definition name_summary (o : outcome name_result) : outcome (dns_err * Z * Z * Z) :=
  r <- o ;; Returns (nr_err r, nr_name r, nr_len r, nr_outname r).

(** the text and the cursor of the driver's result *)
Definition driver_summary (o : outcome driver_state) : outcome (string * dns_err * Z * Z) :=
  s <- o ;; Returns (render (ds_buf s), ds_err s, ds_r s, ds_len s).

Definition text_of (codes : list Z) : string :=
  string_of_list_ascii (map (fun z => ascii_of_nat (Z.to_nat z)) codes).

(** header of a response with one question and [an] answers *)
Definition response_header (an : Z) : list Z := [0; 1; 129; 128; 0; 1; 0; an; 0; 0; 0; 0].

(** the question [com], of the given type, class IN; its name sits at
    offset 12 *)
Definition question_com (qtype : Z) : list Z := [3; 99; 111; 109; 0; 0; qtype; 0; 1].

(** a record header: owner name a pointer to offset 12, class IN, ttl 60 *)
Definition rr_header (type rdlength : Z) : list Z :=
  [192; 12; 0; type; 0; 1; 0; 0; 0; 60; 0; rdlength].

(** an SOA answer whose MNAME and RNAME are compression pointers, followed
    by the five 32-bit fields: the rdata starts at offset 33 and the
    record ends at offset 57, the end of the packet *)
Definition soa_response : list Z :=
  response_header 1 ++ question_com 6 ++ rr_header 6 24
    ++ [192; 12; 192; 12] ++ repeat 0 20.

(** the same SOA answer followed by an A answer *)
Definition soa_then_a_response : list Z :=
  response_header 2 ++ question_com 6 ++ rr_header 6 24
    ++ [192; 12; 192; 12] ++ repeat 0 20
    ++ rr_header 1 4 ++ [10; 0; 0; 1].

(** a TXT answer with one character-string: the rdata starts at offset 33
    and the record ends at offset 38, the end of the packet *)
Definition txt_response : list Z :=
  response_header 1 ++ question_com 16 ++ rr_header 16 5 ++ [4; 97; 98; 99; 100].

(** an MX answer: preference 10, exchange a pointer to offset 12; rdata at
    offset 33 *)
Definition mx_pointer_response : list Z :=
  response_header 1 ++ question_com 15 ++ rr_header 15 4 ++ [0; 10; 192; 12].

(** an MX answer: preference 49164 (0xC00C), exchange the name [foo] *)
Definition mx_high_preference_response : list Z :=
  response_header 1 ++ question_com 15 ++ rr_header 15 7
    ++ [192; 12; 3; 102; 111; 111; 0].

(** an MX answer: preference 10, exchange a label whose last two letters
    are the bytes 0 and 12, then a pointer to offset 12 *)
Definition mx_label_pointer_response : list Z :=
  response_header 1 ++ question_com 15 ++ rr_header 15 8
    ++ [0; 10; 3; 119; 0; 12; 192; 12].

(** an MX answer whose rdata is one byte long *)
Definition mx_short_response : list Z :=
  response_header 1 ++ question_com 15 ++ rr_header 15 1 ++ [0; 0; 0].

(** a response that announces two answers and ends after the first, an A
    record: 37 bytes *)
Definition one_of_two_response : list Z :=
  response_header 2 ++ question_com 1 ++ rr_header 1 4 ++ [10; 0; 0; 1].

(** a response that ends right after the header of its A answer, which
    announces four bytes of rdata: 33 bytes *)
Definition missing_rdata_response : list Z :=
  response_header 1 ++ question_com 1 ++ rr_header 1 4.

(** a pointer to itself *)
Definition pointer_loop : list Z := [192; 0].

(** [n] pointers, the first at offset [here] and aimed at [target], each
    next one aimed at the one before *)
Fixpoint ladder (n : nat) (here target : Z) : list Z :=
  match n with
  | O => []
  | S n' => [192; target] ++ ladder n' (here + 2) here
  end.

(** the name [a] at offset 0, then twenty pointers from offset 3 on: the
    last one, at offset 41, reaches the name in twenty jumps; 43 bytes *)
Definition pointer_ladder : list Z := wire [[97]] ++ ladder 20 3 0.

(** the same with a twenty-first pointer, at offset 43; 45 bytes *)
Definition pointer_ladder_21 : list Z := wire [[97]] ++ ladder 21 3 0.

(** a length byte of 64 in front of 64 letters *)
Definition name_with_length_64 : list Z := 64 :: repeat 97 64 ++ [0].

(** ** Vocabulary of the further properties *)

(** every element of the packet is a byte *)
Definition all_bytes (pkt : list Z) : Prop := Forall (fun b => 0 <= b < 256) pkt.

(** the cursor a name decoder returns, against the cursor it was given:
    it moved forward, the remaining length did not grow nor turn negative,
    and position plus length moved by at most the one terminator byte that
    the decoder does not subtract *)
Definition accounted (name len : Z) (r : name_result) : Prop :=
  name <= nr_name r
  /\ nr_len r <= len
  /\ (0 <= len -> 0 <= nr_len r)
  /\ name + len <= nr_name r + nr_len r <= name + len + 1.

(** the decoder returned, left the array at its size and its write
    position at most at [bound] *)
Definition within (buf : list Z) (bound : Z) (o : outcome name_result) : Prop :=
  exists r, o = Returns r /\ zlength (nr_buf r) = zlength buf /\ nr_outname r <= bound.

(** the range of [unsigned int] *)
Definition two_32 : Z := 4294967296.

(** on the byte [b], both readings of [char] classify the tag bits by
    the value of the byte *)
Definition tag_check (b : Z) : bool :=
  Bool.eqb (char_is_label (char_val true b)) (b <? 64)
  && Bool.eqb (char_is_label (char_val false b)) (b <? 64)
  && Bool.eqb (char_is_offset (char_val true b)) (192 <=? b)
  && Bool.eqb (char_is_offset (char_val false b)) (192 <=? b).

(** the types that [dns_rdata_print] knows in class IN *)
Definition known_type (type : Z) : bool :=
  (type =? type_A) || (type =? type_AAAA) || is_name_type type || (type =? type_TXT).

(** what a cursor primitive that needs [needed] bytes returns: the length
    stays non-negative, position plus length is unchanged, and it succeeds
    with the position moved by [needed] exactly when that many bytes
    remain *)
Definition keeps_cursor (data len : Z) (needed : Z) (result : dns_err * Z * Z) : Prop :=
  let '(e, data', len') := result in
  0 <= len'
  /\ data' + len' = data + len
  /\ (needed <= len -> e = dns_ok /\ data' = data + needed)
  /\ (len < needed -> e = dns_err_malformed /\ data' = data).


(** the code, the cursor and the text builder of the driver's result *)
Definition question_summary (o : outcome driver_state)
  : outcome (dns_err * Z * Z * buffer_stream) :=
  s <- o ;; Returns (ds_err s, ds_r s, ds_len s, ds_buf s).

(** an AAAA answer for 2001:db8::1; rdata at offset 33 *)
Definition aaaa_response : list Z :=
  response_header 1 ++ question_com 28 ++ rr_header 28 16
    ++ [32; 1; 13; 184; 0; 0; 0; 0; 0; 0; 0; 0; 0; 0; 0; 1].

(** a record of class 4096 and type 41 with three bytes of rdata: owner
    name the root at offset 21, header at offset 22, rdata at offset 32 *)
Definition opt_response : list Z :=
  response_header 1 ++ question_com 1 ++ [0; 0; 41; 16; 0; 0; 0; 0; 0; 0; 3; 1; 2; 3].

(** * Verification *)

(** split a conjunction into its parts, and nothing else *)
Ltac conjuncts := repeat match goal with |- _ /\ _ => split end.

(** decide a closed goal by evaluation *)
Ltac evaluate := vm_compute; reflexivity.

(** the same below existential quantifiers, whose witnesses evaluation
    finds *)
Ltac evaluate_ex := repeat match goal with |- ex _ => eexists end; evaluate.

Ltac inv H := inversion H; subst; clear H.

(** ** The model on the examples of the specification *)

(** the name [www.example.com] *)
Example www_example_com_decodes :
  forall char_signed : bool,
    bind (dns_header_parse_name char_signed
            (wire [[119; 119; 119]; [101; 120; 97; 109; 112; 108; 101]; [99; 111; 109]])
            0 0 17 fresh_name 0 (DNS_OUTNAME_LEN - 1) 0)
         (fun r => Returns (nr_err r, cstring_at (nr_buf r) 0, cstring_at (nr_buf r) 1))
    = Returns (dns_ok, ".www.example.com"%string, "www.example.com"%string).
Proof. intros [|]; evaluate. Qed.

(** a label byte 1 shows as a star *)
Example unprintable_byte_is_starred :
  forall char_signed : bool,
    bind (dns_header_parse_name char_signed (wire [[97; 1; 98]]) 0 0 5
            fresh_name 0 (DNS_OUTNAME_LEN - 1) 0)
         (fun r => Returns (nr_err r, cstring_at (nr_buf r) 1))
    = Returns (dns_ok, "a*b"%string).
Proof. intros [|]; evaluate. Qed.

(** an A record that declares six bytes of rdata, with six bytes there *)
Example a_record_of_six_bytes :
  forall char_signed : bool,
    bind (dns_rdata_print char_signed ip6_text
            (response_header 1 ++ question_com 1 ++ rr_header 1 6 ++ [10; 0; 0; 1; 0; 0])
            0 23 33 6 [])
         (fun res => Returns (rd_err res, rd_buf res))
    = Returns (dns_err_bad_rdlength, []).
Proof. intros [|]; evaluate. Qed.

(** two questions are refused whatever follows *)
Example two_questions_refused :
  forall char_signed : bool,
    bind (write_dns_server_data char_signed ip6_text
            ([0; 1; 1; 0; 0; 2; 0; 0; 0; 0; 0; 0] ++ question_com 1 ++ question_com 1) [])
         (fun s => Returns (ds_err s, ds_buf s))
    = Returns (dns_err_too_many, ["{"%string; frag_malformed 18]).
Proof. intros [|]; evaluate. Qed.

(** ** The outcome monad and the primitives *)

Lemma bind_returns {A B} (m : outcome A) (k : A -> outcome B) (b : B) :
  bind m k = Returns b -> exists a, m = Returns a /\ k a = Returns b.
Proof. destruct m; simpl; intros H; try discriminate; eauto. Qed.

Lemma to_uchar_nonneg x : 0 <= to_uchar x.
Proof. unfold to_uchar. apply Z.mod_pos_bound. lia. Qed.

Lemma cond_true (a b : bool) : a = true -> b = true -> a && b = true.
Proof. intros -> ->. reflexivity. Qed.

Lemma zlength_app {A} (a b : list A) : zlength (a ++ b) = zlength a + zlength b.
Proof. unfold zlength. rewrite length_app. lia. Qed.

Lemma zlength_cons {A} (a : A) (b : list A) : zlength (a :: b) = 1 + zlength b.
Proof. unfold zlength. simpl length. lia. Qed.

Lemma zlength_nil {A} : zlength (@nil A) = 0.
Proof. reflexivity. Qed.

Lemma zlength_map {A B} (f : A -> B) l : zlength (map f l) = zlength l.
Proof. unfold zlength. now rewrite length_map. Qed.

Lemma zlength_nonneg {A} (l : list A) : 0 <= zlength l.
Proof. unfold zlength. lia. Qed.

Ltac zlen_bounds :=
  repeat match goal with
    | |- context [zlength ?l] =>
        lazymatch goal with
        | _ : 0 <= zlength l |- _ => fail
        | _ => pose proof (zlength_nonneg l)
        end
    | _ : context [zlength ?l] |- _ =>
        lazymatch goal with
        | _ : 0 <= zlength l |- _ => fail
        | _ => pose proof (zlength_nonneg l)
        end
    end.

Ltac zlen :=
  repeat first [ rewrite zlength_app in * | rewrite zlength_cons in *
               | rewrite zlength_nil in * | rewrite zlength_map in * ];
  zlen_bounds; lia.

Ltac list_eq :=
  subst; repeat rewrite <- app_assoc; simpl; repeat rewrite <- app_assoc; reflexivity.

Lemma load_app pre b rest :
  load (pre ++ b :: rest) (zlength pre) = Returns b.
Proof.
  unfold load, in_range, zlength. rewrite length_app. simpl length.
  replace ((0 <=? Z.of_nat (length pre)) && (Z.of_nat (length pre) <? Z.of_nat (length pre + S (length rest)))) with true
    by (symmetry; apply andb_true_iff; split; [apply Z.leb_le|apply Z.ltb_lt]; lia).
  rewrite Nat2Z.id. rewrite nth_middle. reflexivity.
Qed.

Lemma update_app pre x rest v :
  update (pre ++ x :: rest) (length pre) v = pre ++ v :: rest.
Proof. induction pre as [|h t IH]; simpl; [reflexivity|]. now rewrite IH. Qed.

Lemma store_app pre x rest v :
  store (pre ++ x :: rest) (zlength pre) v = Returns (pre ++ v :: rest).
Proof.
  unfold store, in_range, zlength. rewrite length_app. simpl length.
  replace ((0 <=? Z.of_nat (length pre)) && (Z.of_nat (length pre) <? Z.of_nat (length pre + S (length rest)))) with true
    by (symmetry; apply andb_true_iff; split; [apply Z.leb_le|apply Z.ltb_lt]; lia).
  rewrite Nat2Z.id, update_app. reflexivity.
Qed.

Lemma length_update l : forall n v, length (update l n v) = length l.
Proof. induction l as [|h t IH]; intros [|n] v; simpl; auto. Qed.


Lemma zlength_update l n v : zlength (update l n v) = zlength l.
Proof. unfold zlength. now rewrite length_update. Qed.

Lemma update_twice l : forall n v, update (update l n v) n v = update l n v.
Proof. induction l as [|h t IH]; intros [|n] v; simpl; auto. now rewrite IH. Qed.

Lemma store_in_range buf idx v :
  0 <= idx < zlength buf ->
  store buf idx v = Returns (update buf (Z.to_nat idx) v).
Proof.
  intros H. unfold store, in_range. fold (zlength buf).
  rewrite cond_true by (first [apply Z.leb_le | apply Z.ltb_lt]; lia).
  reflexivity.
Qed.

Lemma land_below_64 x : 0 <= x < 64 -> Z.land x 192 = 0.
Proof.
  intros Hx. apply Z.bits_inj'. intros n Hn.
  rewrite Z.land_spec, Z.bits_0.
  destruct (Z.ltb_spec n 6) as [Hlt|Hge].
  - assert (Hcases : n = 0 \/ n = 1 \/ n = 2 \/ n = 3 \/ n = 4 \/ n = 5) by lia.
    destruct Hcases as [->|[->|[->|[->|[->| ->]]]]]; apply andb_false_r.
  - replace (Z.testbit x n) with false; [reflexivity|].
    symmetry. destruct (Z.eq_dec x 0) as [->|Hnz]; [apply Z.bits_0|].
    apply Z.bits_above_log2; [lia|].
    apply Z.log2_lt_pow2; [lia|].
    apply Z.lt_le_trans with (2 ^ 6); [simpl; lia|].
    apply Z.pow_le_mono_r; lia.
Qed.

Lemma char_val_small sgn b : 0 <= b < 128 -> char_val sgn b = b.
Proof.
  intros Hb. unfold char_val.
  replace (128 <=? b) with false by (symmetry; apply Z.leb_gt; lia).
  now rewrite andb_false_r.
Qed.

Lemma label_jump_positive ch : char_is_label ch = true -> 0 < to_uchar (ch + 1).
Proof.
  unfold char_is_label, to_uchar. intros H. apply Z.eqb_eq in H.
  assert (Hb : 0 <= (ch + 1) mod 256 < 256) by (apply Z.mod_pos_bound; lia).
  destruct (Z.eq_dec ((ch + 1) mod 256) 0) as [E|E]; [exfalso|lia].
  assert (Hm : ch mod 256 = 255).
  { pose proof (Z.div_mod (ch + 1) 256 ltac:(lia)) as H1.
    rewrite E in H1.
    symmetry. apply (Z.mod_unique ch 256 ((ch + 1) / 256 - 1) 255); lia. }
  assert (Hbit : Z.testbit (Z.land ch 192) 7 = true).
  { rewrite Z.land_spec.
    rewrite <- (Z.mod_pow2_bits_low ch 8 7) by lia.
    change (2 ^ 8) with 256. rewrite Hm. reflexivity. }
  rewrite H in Hbit. discriminate.
Qed.

(** ** The remaining length never grows inside a name decoder *)

Lemma follow_offset_len pkt hdr recurse depth offsetlen name len buf outname outname_len r :
  follow_offset pkt hdr recurse depth offsetlen name len buf outname outname_len = Returns r ->
  nr_len r <= len.
Proof.
  unfold follow_offset, uint16_parse, sizeof_uint16.
  destruct (len <? 2) eqn:E.
  - intros H; inv H; simpl; lia.
  - intros H. apply bind_returns in H as (v & _ & H).
    destruct (depth >=? DNS_MAX_RECURSION_DEPTH).
    + inv H; simpl; lia.
    + apply bind_returns in H as (r' & _ & H). inv H; simpl; lia.
Qed.

Lemma name_loop_len sgn pkt hdr recurse depth terminus offsetlen fuel :
  forall c name len buf outname outname_len r,
    name_loop sgn pkt hdr recurse depth terminus offsetlen fuel c name len buf outname outname_len = Returns r ->
    nr_len r <= len.
Proof.
  induction fuel as [|fuel IH]; intros c name len buf outname outname_len r; simpl.
  - destruct ((len >? 0) && (outname <? terminus)); intros H; inv H; simpl; lia.
  - destruct ((len >? 0) && (outname <? terminus)); [|intros H; inv H; simpl; lia].
    intros H. apply bind_returns in H as (b & _ & H).
    destruct (char_is_label (char_val sgn b)).
    + destruct ((char_val sgn b <? 64) && (len >? char_val sgn b)); [|inv H; simpl; lia].
      destruct (char_val sgn b =? 0).
      * apply bind_returns in H as (buf' & _ & H). inv H; simpl; lia.
      * apply bind_returns in H as (buf1 & _ & H).
        apply bind_returns in H as ([buf2 outname2] & _ & H).
        apply IH in H. pose proof (to_uchar_nonneg (char_val sgn b + 1)). lia.
    + destruct (char_is_offset (char_val sgn b)).
      * eapply follow_offset_len; eauto.
      * inv H; simpl; lia.
Qed.

Lemma mxname_loop_len sgn pkt hdr recurse depth terminus offsetlen fuel :
  forall pp c name len buf outname outname_len r,
    mxname_loop sgn pkt hdr recurse depth terminus offsetlen fuel pp c name len buf outname outname_len = Returns r ->
    nr_len r <= len.
Proof.
  induction fuel as [|fuel IH]; intros pp c name len buf outname outname_len r; simpl.
  - destruct ((len >? 0) && (outname <? terminus)); intros H; inv H; simpl; lia.
  - destruct ((len >? 0) && (outname <? terminus)); [|intros H; inv H; simpl; lia].
    intros H. apply bind_returns in H as (b & _ & H).
    destruct (char_is_label (char_val sgn b)).
    + apply bind_returns in H as (b2 & _ & H).
      set (len2 := if pp then len else len - 2) in *.
      assert (len2 <= len) by (subst len2; destruct pp; lia).
      destruct ((char_val sgn b2 <? 64) && (len2 >? char_val sgn b2)); [|inv H; simpl; lia].
      destruct (char_val sgn b2 =? 0).
      * apply bind_returns in H as (buf' & _ & H). inv H; simpl; lia.
      * apply bind_returns in H as (buf1 & _ & H).
        apply bind_returns in H as ([buf2 outname2] & _ & H).
        apply IH in H. pose proof (to_uchar_nonneg (char_val sgn b2 + 1)). lia.
    + destruct (char_is_offset (char_val sgn b)).
      * eapply follow_offset_len; eauto.
      * inv H; simpl; lia.
Qed.

Lemma parse_name_rec_len sgn k pkt hdr name len buf outname outname_len depth r :
  parse_name_rec sgn k pkt hdr name len buf outname outname_len depth = Returns r ->
  nr_len r <= len.
Proof.
  destruct k as [|k]; simpl; [discriminate|].
  destruct ((len <=? 0) || (outname >? outname + outname_len) || (outname_len <? 2)).
  - intros H; inv H; simpl; lia.
  - intros H. apply bind_returns in H as (buf1 & _ & H).
    eapply name_loop_len; eauto.
Qed.

Lemma parse_mxname_rec_len sgn k pkt hdr name len buf outname outname_len depth r :
  parse_mxname_rec sgn k pkt hdr name len buf outname outname_len depth = Returns r ->
  nr_len r <= len.
Proof.
  destruct k as [|k]; simpl; [discriminate|].
  destruct ((len <=? 0) || (outname >? outname + outname_len) || (outname_len <? 2)).
  - intros H; inv H; simpl; lia.
  - intros H. apply bind_returns in H as (buf1 & _ & H).
    eapply mxname_loop_len; eauto.
Qed.

Lemma data_advance_rest r len :
  1 < len < 4294967296 ->
  data_advance r len (to_uint (len - 1)) = (dns_ok, r + (len - 1), 1).
Proof.
  intros H. unfold data_advance, to_uint.
  rewrite !Z.mod_small by lia.
  destruct (len <? len - 1) eqn:E; [lia|].
  f_equal. lia.
Qed.

(** ** Decoding an uncompressed name *)

Lemma copy_label_app pkt c :
  forall bytes ppre prest i pre mid suf,
    pkt = ppre ++ bytes ++ prest ->
    c + i = zlength ppre ->
    length mid = length bytes ->
    copy_label pkt c (length bytes) i (pre ++ mid ++ suf) (zlength pre)
    = Returns (pre ++ map printable bytes ++ suf, zlength pre + zlength bytes).
Proof.
  induction bytes as [|b bs IH]; intros ppre prest i pre mid suf Hpkt Hc Hmid.
  - destruct mid; [|discriminate]. simpl. f_equal. f_equal. zlen.
  - destruct mid as [|m ms]; [discriminate|]. simpl in Hmid. injection Hmid as Hmid.
    simpl copy_label. rewrite Hc.
    assert (Hload : load pkt (zlength ppre) = Returns b)
      by (subst pkt; simpl app; apply load_app).
    rewrite Hload. cbv beta iota delta [bind].
    rewrite store_app. cbv beta iota delta [bind].
    replace (pre ++ printable b :: ms ++ suf) with ((pre ++ [printable b]) ++ ms ++ suf)
      by (rewrite <- app_assoc; reflexivity).
    replace (zlength pre + 1) with (zlength (pre ++ [printable b]))
      by (rewrite zlength_app; reflexivity).
    rewrite (IH (ppre ++ [b]) prest (i + 1) (pre ++ [printable b]) ms suf).
    + f_equal. f_equal.
      * rewrite <- app_assoc. reflexivity.
      * zlen.
    + rewrite <- app_assoc. exact Hpkt.
    + zlen.
    + exact Hmid.
Qed.

Lemma length_le_dotted labels :
  Forall label_ok labels -> (length labels <= length (dotted labels))%nat.
Proof.
  induction 1 as [|l t Hl Ht IH]; simpl; [lia|].
  rewrite length_app, length_map. lia.
Qed.

Lemma name_loop_wire sgn pkt hdr recurse depth terminus offsetlen prest :
  forall labels ppre fuel c name len buf pre mid suf outname outname_len,
    Forall label_ok labels ->
    pkt = ppre ++ wire labels ++ prest ->
    c = zlength ppre ->
    buf = pre ++ mid ++ suf ->
    outname = zlength pre ->
    (length labels < fuel)%nat ->
    zlength (dotted labels) < len ->
    outname + zlength (dotted labels) < terminus ->
    length mid = S (length (dotted labels)) ->
    name_loop sgn pkt hdr recurse depth terminus offsetlen fuel c name len buf
              outname outname_len
    = Returns (mk_name_result dns_ok (c + zlength (wire labels))
                 (len - zlength (dotted labels))
                 (pre ++ dotted labels ++ 0 :: suf)
                 (outname + zlength (dotted labels))).
Proof.
  induction labels as [|l t IH];
    intros ppre fuel c name len buf pre mid suf outname outname_len
           Hok Hpkt Hc Hbuf Hout Hfuel Hlen Hroom Hmid.
  - destruct fuel as [|fuel]; [inversion Hfuel|].
    simpl dotted in *. simpl wire in *.
    destruct mid as [|m [|? ?]]; try discriminate.
    cbn [name_loop].
    rewrite cond_true by (first [apply Z.gtb_lt | apply Z.ltb_lt]; zlen).
    subst c. replace (load pkt (zlength ppre)) with (Returns 0)
      by (subst pkt; symmetry; apply load_app).
    cbv beta iota delta [bind]. rewrite char_val_small by lia.
    change (char_is_label 0) with true. cbv iota.
    rewrite cond_true by (first [apply Z.ltb_lt | apply Z.gtb_lt]; zlen).
    change (0 =? 0) with true. cbv iota.
    subst buf outname. simpl app. rewrite store_app. cbv beta iota delta [bind].
    f_equal. f_equal; zlen.
  - destruct fuel as [|fuel]; [inversion Hfuel|].
    apply Forall_cons_iff in Hok as [Hl Ht].
    unfold label_ok in Hl.
    simpl dotted in *. simpl wire in *.
    set (L := Z.of_nat (length l)) in *.
    assert (HL : 1 <= L <= 63) by (subst L; lia).
    assert (HLz : zlength l = L) by reflexivity.
    destruct mid as [|m mid']; [discriminate|].
    simpl in Hmid. injection Hmid as Hmid. rewrite length_app, length_map in Hmid.
    cbn [name_loop].
    rewrite cond_true by (first [apply Z.gtb_lt | apply Z.ltb_lt]; zlen).
    subst c. replace (load pkt (zlength ppre)) with (Returns L)
      by (subst pkt; symmetry; apply load_app).
    cbv beta iota delta [bind]. rewrite char_val_small by lia.
    unfold char_is_label. rewrite land_below_64 by lia.
    change (0 =? 0) with true. cbv iota.
    rewrite cond_true by (first [apply Z.ltb_lt | apply Z.gtb_lt]; zlen).
    replace (L =? 0) with false by (symmetry; apply Z.eqb_neq; lia).
    cbv iota. subst buf outname. simpl app. rewrite store_app.
    cbv beta iota delta [bind].
    unfold to_uchar. rewrite Z.mod_small by lia.
    replace (Z.to_nat (L + 1 - 1)) with (length l) by (subst L; lia).
    rewrite <- (firstn_skipn (length l) mid').
    replace (pre ++ 46 :: (firstn (length l) mid' ++ skipn (length l) mid') ++ suf)
      with ((pre ++ [46]) ++ firstn (length l) mid' ++ (skipn (length l) mid' ++ suf))
      by (rewrite <- !app_assoc; reflexivity).
    replace (zlength pre + 1) with (zlength (pre ++ [46])) by zlen.
    rewrite (copy_label_app _ _ l (ppre ++ [L]) (wire t ++ prest) 1).
    + cbv beta iota delta [bind].
      erewrite (IH (ppre ++ L :: l) fuel _ _ _ _
                   ((pre ++ [46]) ++ map printable l) (skipn (length l) mid') suf).
      * f_equal. f_equal; try zlen. list_eq.
      * assumption.
      * list_eq.
      * zlen.
      * list_eq.
      * zlen.
      * simpl in Hfuel. lia.
      * zlen.
      * zlen.
      * rewrite length_skipn. lia.
    + list_eq.
    + zlen.
    + rewrite length_firstn. lia.
Qed.

Lemma parse_name_rec_wire sgn k ppre labels prest hdr len buf outname outname_len depth :
  Forall label_ok labels ->
  zlength (dotted labels) < len ->
  0 <= outname ->
  zlength (dotted labels) < outname_len ->
  2 <= outname_len ->
  outname + outname_len <= zlength buf ->
  parse_name_rec sgn (S k) (ppre ++ wire labels ++ prest) hdr (zlength ppre) len
                 buf outname outname_len depth
  = Returns (mk_name_result dns_ok (zlength ppre + zlength (wire labels))
               (len - zlength (dotted labels))
               (decoded_buffer buf outname labels)
               (outname + zlength (dotted labels))).
Proof.
  intros Hok Hlen Hout Hroom Hroom2 Hbuf.
  pose proof (zlength_nonneg (dotted labels)) as Hd.
  pose proof (length_le_dotted labels Hok) as Hll.
  cbn [parse_name_rec].
  replace ((len <=? 0) || (outname >? outname + outname_len) || (outname_len <? 2))
    with false.
  2:{ symmetry. apply orb_false_iff; split; [apply orb_false_iff; split|].
      - apply Z.leb_gt; lia.
      - rewrite Z.gtb_ltb. apply Z.ltb_ge; lia.
      - apply Z.ltb_ge; lia. }
  rewrite store_in_range by lia. cbv beta iota delta [bind].
  set (buf1 := update buf (Z.to_nat (outname + 1)) 0).
  assert (Hlen1 : zlength buf1 = zlength buf) by apply zlength_update.
  unfold decoded_buffer. fold buf1.
  set (pre := firstn (Z.to_nat outname) buf1).
  set (mid := firstn (S (length (dotted labels))) (skipn (Z.to_nat outname) buf1)).
  set (suf := skipn (S (length (dotted labels))) (skipn (Z.to_nat outname) buf1)).
  assert (Hpre : zlength pre = outname).
  { unfold pre, zlength in *. rewrite length_firstn. lia. }
  apply (name_loop_wire sgn _ hdr _ depth _ _ prest labels ppre _ _ _ _ _ pre mid suf).
  - assumption.
  - reflexivity.
  - reflexivity.
  - unfold pre, mid, suf. now rewrite !firstn_skipn.
  - now rewrite Hpre.
  - unfold zlength in *. lia.
  - assumption.
  - lia.
  - unfold mid. rewrite length_firstn, length_skipn. unfold zlength in *. lia.
Qed.

(** ** Termination *)

Lemma bind_terminates {A B} (m : outcome A) (k : A -> outcome B) :
  terminates m -> (forall a, m = Returns a -> terminates (k a)) -> terminates (bind m k).
Proof.
  unfold terminates. destruct m; simpl; intros Hm Hk; auto; discriminate.
Qed.

Lemma returns_terminates {A} (a : A) : terminates (Returns a).
Proof. discriminate. Qed.

Lemma load_terminates pkt off : terminates (load pkt off).
Proof. unfold load. destruct (in_range _ _); discriminate. Qed.

Lemma store_terminates buf idx v : terminates (store buf idx v).
Proof. unfold store. destruct (in_range _ _); discriminate. Qed.

Lemma load16_terminates pkt off : terminates (load16 pkt off).
Proof.
  unfold load16. apply bind_terminates; [apply load_terminates|intros].
  apply bind_terminates; [apply load_terminates|intros]. apply returns_terminates.
Qed.

Lemma copy_label_terminates pkt c n :
  forall i buf outname, terminates (copy_label pkt c n i buf outname).
Proof.
  induction n as [|n IH]; intros; simpl; [apply returns_terminates|].
  apply bind_terminates; [apply load_terminates|intros].
  apply bind_terminates; [apply store_terminates|intros]. apply IH.
Qed.

Lemma follow_offset_terminates pkt hdr recurse depth offsetlen name len buf outname outname_len :
  (depth < DNS_MAX_RECURSION_DEPTH ->
   forall a b c d e, terminates (recurse a b c d e)) ->
  terminates (follow_offset pkt hdr recurse depth offsetlen name len buf outname outname_len).
Proof.
  intros Hrec. unfold follow_offset, uint16_parse.
  destruct (len <? sizeof_uint16); [apply returns_terminates|].
  apply bind_terminates; [apply load16_terminates|intros v _].
  destruct (depth >=? DNS_MAX_RECURSION_DEPTH) eqn:E; [apply returns_terminates|].
  apply bind_terminates; [|intros; apply returns_terminates].
  apply Hrec. rewrite Z.geb_leb in E. apply Z.leb_gt in E. exact E.
Qed.

Lemma name_loop_terminates sgn pkt hdr recurse depth terminus offsetlen :
  (depth < DNS_MAX_RECURSION_DEPTH ->
   forall a b c d e, terminates (recurse a b c d e)) ->
  forall fuel c name len buf outname outname_len,
    len <= Z.of_nat fuel ->
    terminates (name_loop sgn pkt hdr recurse depth terminus offsetlen fuel
                          c name len buf outname outname_len).
Proof.
  intros Hrec. induction fuel as [|fuel IH]; intros c name len buf outname outname_len Hlen;
    cbn [name_loop].
  - replace (len >? 0) with false by (symmetry; rewrite Z.gtb_ltb; apply Z.ltb_ge; lia).
    apply returns_terminates.
  - destruct ((len >? 0) && (outname <? terminus)); [|apply returns_terminates].
    apply bind_terminates; [apply load_terminates|intros b _].
    destruct (char_is_label (char_val sgn b)) eqn:El.
    + destruct ((char_val sgn b <? 64) && (len >? char_val sgn b)); [|apply returns_terminates].
      destruct (char_val sgn b =? 0).
      * apply bind_terminates; [apply store_terminates|intros; apply returns_terminates].
      * apply bind_terminates; [apply store_terminates|intros buf1 _].
        apply bind_terminates; [apply copy_label_terminates|intros [buf2 outname2] _].
        apply IH. pose proof (label_jump_positive _ El). lia.
    + destruct (char_is_offset (char_val sgn b)); [|apply returns_terminates].
      apply follow_offset_terminates. exact Hrec.
Qed.

Lemma mxname_loop_terminates sgn pkt hdr recurse depth terminus offsetlen :
  (depth < DNS_MAX_RECURSION_DEPTH ->
   forall a b c d e, terminates (recurse a b c d e)) ->
  forall fuel pp c name len buf outname outname_len,
    len <= Z.of_nat fuel ->
    terminates (mxname_loop sgn pkt hdr recurse depth terminus offsetlen fuel pp
                            c name len buf outname outname_len).
Proof.
  intros Hrec. induction fuel as [|fuel IH];
    intros pp c name len buf outname outname_len Hlen; cbn [mxname_loop].
  - replace (len >? 0) with false by (symmetry; rewrite Z.gtb_ltb; apply Z.ltb_ge; lia).
    apply returns_terminates.
  - destruct ((len >? 0) && (outname <? terminus)); [|apply returns_terminates].
    apply bind_terminates; [apply load_terminates|intros b Hb].
    destruct (char_is_label (char_val sgn b)) eqn:El.
    + apply bind_terminates; [apply load_terminates|intros b2 Hb2].
      assert (Hjump : (if pp then len else len - 2) - to_uchar (char_val sgn b2 + 1)
                      <= Z.of_nat fuel).
      { destruct pp.
        - rewrite Hb in Hb2. injection Hb2 as <-.
          pose proof (label_jump_positive _ El). lia.
        - pose proof (Z.mod_pos_bound (char_val sgn b2 + 1) 256 ltac:(lia)).
          unfold to_uchar. lia. }
      destruct ((char_val sgn b2 <? 64) && ((if pp then len else len - 2) >? char_val sgn b2));
        [|apply returns_terminates].
      destruct (char_val sgn b2 =? 0).
      * apply bind_terminates; [apply store_terminates|intros; apply returns_terminates].
      * apply bind_terminates; [apply store_terminates|intros buf1 _].
        apply bind_terminates; [apply copy_label_terminates|intros [buf2 outname2] _].
        apply IH. exact Hjump.
    + destruct (char_is_offset (char_val sgn b)); [|apply returns_terminates].
      apply follow_offset_terminates. exact Hrec.
Qed.

Lemma parse_name_rec_terminates sgn pkt hdr :
  forall k name len buf outname outname_len depth,
    (Z.to_nat (DNS_MAX_RECURSION_DEPTH - depth) < k)%nat ->
    terminates (parse_name_rec sgn k pkt hdr name len buf outname outname_len depth).
Proof.
  induction k as [|k IH]; intros name len buf outname outname_len depth Hk; [lia|].
  cbn [parse_name_rec].
  destruct ((len <=? 0) || (outname >? outname + outname_len) || (outname_len <? 2));
    [apply returns_terminates|].
  apply bind_terminates; [apply store_terminates|intros buf1 _].
  apply name_loop_terminates; [|lia].
  intros Hd a b c d e. apply IH. unfold DNS_MAX_RECURSION_DEPTH in *. lia.
Qed.

Lemma parse_mxname_rec_terminates sgn pkt hdr :
  forall k name len buf outname outname_len depth,
    (Z.to_nat (DNS_MAX_RECURSION_DEPTH - depth) < k)%nat ->
    terminates (parse_mxname_rec sgn k pkt hdr name len buf outname outname_len depth).
Proof.
  induction k as [|k IH]; intros name len buf outname outname_len depth Hk; [lia|].
  cbn [parse_mxname_rec].
  destruct ((len <=? 0) || (outname >? outname + outname_len) || (outname_len <? 2));
    [apply returns_terminates|].
  apply bind_terminates; [apply store_terminates|intros buf1 _].
  apply mxname_loop_terminates; [|lia].
  intros Hd a b c d e. apply IH. unfold DNS_MAX_RECURSION_DEPTH in *. lia.
Qed.

(** ** Pointer chains *)

Lemma pointer_at_inv sgn pkt p t :
  pointer_at sgn pkt p = Some t ->
  exists hi lo, load pkt p = Returns hi /\ load pkt (p + 1) = Returns lo
                /\ char_is_label (char_val sgn hi) = false
                /\ char_is_offset (char_val sgn hi) = true
                /\ t = Z.land (hi * 256 + lo) 16383.
Proof.
  unfold pointer_at. destruct (load pkt p) as [hi| |]; try discriminate.
  destruct (load pkt (p + 1)) as [lo| |]; try discriminate.
  destruct (char_is_label (char_val sgn hi)) eqn:El; simpl; try discriminate.
  destruct (char_is_offset (char_val sgn hi)) eqn:Eo; try discriminate.
  intros H; injection H as <-. exists hi, lo. auto.
Qed.

(** one jump: the call at a pointer is the call at its target, one level
    deeper, seen through [after_jump] *)
Lemma parse_name_rec_jump sgn k pkt p len buf outname outname_len depth t :
  pointer_at sgn pkt p = Some t ->
  2 <= len ->
  depth < DNS_MAX_RECURSION_DEPTH ->
  0 <= outname -> 2 <= outname_len -> outname + 1 < zlength buf ->
  parse_name_rec sgn (S k) pkt 0 p len buf outname outname_len depth
  = r <- parse_name_rec sgn k pkt 0 t (p + len - t)
                        (update buf (Z.to_nat (outname + 1)) 0)
                        outname outname_len (depth + 1) ;;
    Returns (after_jump p len r).
Proof.
  intros Hp Hlen Hdepth Hout Hroom Hbuf.
  apply pointer_at_inv in Hp as (hi & lo & Hhi & Hlo & Hlab & Hoff & ->).
  cbn [parse_name_rec].
  replace ((len <=? 0) || (outname >? outname + outname_len) || (outname_len <? 2))
    with false.
  2:{ symmetry. apply orb_false_iff; split; [apply orb_false_iff; split|].
      - apply Z.leb_gt; lia.
      - rewrite Z.gtb_ltb. apply Z.ltb_ge; lia.
      - apply Z.ltb_ge; lia. }
  rewrite store_in_range by lia. cbv beta iota delta [bind].
  destruct (Z.to_nat len) as [|fuel] eqn:Efuel; [lia|].
  cbn [name_loop].
  rewrite cond_true by (first [apply Z.gtb_lt | apply Z.ltb_lt]; lia).
  rewrite Hhi. cbv beta iota delta [bind]. rewrite Hlab, Hoff.
  unfold follow_offset, uint16_parse, sizeof_uint16.
  replace (len <? 2) with false by (symmetry; apply Z.ltb_ge; lia).
  unfold load16. rewrite Hhi, Hlo. cbv beta iota delta [bind].
  replace (depth >=? DNS_MAX_RECURSION_DEPTH) with false
    by (symmetry; rewrite Z.geb_leb; apply Z.leb_gt; lia).
  replace (0 + Z.land (hi * 256 + lo) 16383) with (Z.land (hi * 256 + lo) 16383) by lia.
  replace (p - 0 + len - Z.land (hi * 256 + lo) 16383)
    with (p + len - Z.land (hi * 256 + lo) 16383) by lia.
  reflexivity.
Qed.

(** at the depth limit a pointer is refused *)
Lemma parse_name_rec_limit sgn k pkt p len buf outname outname_len depth t :
  pointer_at sgn pkt p = Some t ->
  2 <= len ->
  DNS_MAX_RECURSION_DEPTH <= depth ->
  0 <= outname -> 2 <= outname_len -> outname + 1 < zlength buf ->
  parse_name_rec sgn (S k) pkt 0 p len buf outname outname_len depth
  = Returns (mk_name_result dns_err_offset_too_long (p + 2) (len - 2)
               (update buf (Z.to_nat (outname + 1)) 0) outname).
Proof.
  intros Hp Hlen Hdepth Hout Hroom Hbuf.
  apply pointer_at_inv in Hp as (hi & lo & Hhi & Hlo & Hlab & Hoff & ->).
  cbn [parse_name_rec].
  replace ((len <=? 0) || (outname >? outname + outname_len) || (outname_len <? 2))
    with false.
  2:{ symmetry. apply orb_false_iff; split; [apply orb_false_iff; split|].
      - apply Z.leb_gt; lia.
      - rewrite Z.gtb_ltb. apply Z.ltb_ge; lia.
      - apply Z.ltb_ge; lia. }
  rewrite store_in_range by lia. cbv beta iota delta [bind].
  destruct (Z.to_nat len) as [|fuel] eqn:Efuel; [lia|].
  cbn [name_loop].
  rewrite cond_true by (first [apply Z.gtb_lt | apply Z.ltb_lt]; lia).
  rewrite Hhi. cbv beta iota delta [bind]. rewrite Hlab, Hoff.
  unfold follow_offset, uint16_parse, sizeof_uint16.
  replace (len <? 2) with false by (symmetry; apply Z.ltb_ge; lia).
  unfold load16. rewrite Hhi, Hlo. cbv beta iota delta [bind].
  replace (depth >=? DNS_MAX_RECURSION_DEPTH) with true
    by (symmetry; rewrite Z.geb_leb; apply Z.leb_le; lia).
  reflexivity.
Qed.

Lemma follow_step sgn pkt total n p t :
  follow sgn pkt total (S n) p = Some t ->
  exists q, pointer_at sgn pkt p = Some q /\ p + 2 <= total
            /\ follow sgn pkt total n q = Some t.
Proof.
  cbn [follow]. destruct (pointer_at sgn pkt p) as [q|]; [|discriminate].
  destruct (p + 2 <=? total) eqn:E; [|discriminate].
  intros H. exists q. apply Z.leb_le in E. auto.
Qed.

Lemma follow_last sgn pkt total :
  forall n p t,
    follow sgn pkt total (S n) p = Some t ->
    exists q, follow sgn pkt total n p = Some q
              /\ pointer_at sgn pkt q = Some t /\ q + 2 <= total.
Proof.
  induction n as [|n IH]; intros p t H.
  - apply follow_step in H as (q & Hq & Hp & H). simpl in H. injection H as ->.
    exists p. auto.
  - apply follow_step in H as (q & Hq & Hp & H).
    apply IH in H as (q' & Hf & Hq' & Hp').
    exists q'. split; [|auto].
    cbn [follow]. rewrite Hq.
    replace (p + 2 <=? total) with true by (symmetry; apply Z.leb_le; lia).
    exact Hf.
Qed.

(** [S n] jumps: the call at the head of the chain is the call at its end,
    [S n] levels deeper *)
Lemma parse_name_rec_chain sgn pkt total outname outname_len :
  0 <= outname -> 2 <= outname_len ->
  forall n k p t buf depth,
    follow sgn pkt total (S n) p = Some t ->
    depth + Z.of_nat (S n) <= DNS_MAX_RECURSION_DEPTH ->
    outname + 1 < zlength buf ->
    parse_name_rec sgn (S n + k) pkt 0 p (total - p) buf outname outname_len depth
    = r <- parse_name_rec sgn k pkt 0 t (total - t)
                          (update buf (Z.to_nat (outname + 1)) 0)
                          outname outname_len (depth + Z.of_nat (S n)) ;;
      Returns (after_jump p (total - p) r).
Proof.
  intros Hout Hroom.
  induction n as [|n IH]; intros k p t buf depth Hf Hd Hbuf.
  - apply follow_step in Hf as (q & Hq & Hp & Hf). simpl in Hf. injection Hf as ->.
    change (1 + k)%nat with (S k).
    rewrite (parse_name_rec_jump sgn k pkt p (total - p) buf outname outname_len depth t)
      by (auto; lia).
    replace (p + (total - p) - t) with (total - t) by lia.
    reflexivity.
  - apply follow_step in Hf as (q & Hq & Hp & Hf).
    change (S (S n) + k)%nat with (S (S n + k)).
    rewrite (parse_name_rec_jump sgn _ pkt p (total - p) buf outname outname_len depth q)
      by (auto; lia).
    replace (p + (total - p) - q) with (total - q) by lia.
    rewrite (IH k q t) by (rewrite ?zlength_update; auto; lia).
    rewrite update_twice.
    replace (depth + 1 + Z.of_nat (S n)) with (depth + Z.of_nat (S (S n))) by lia.
    destruct (parse_name_rec sgn k pkt 0 t (total - t)
                (update buf (Z.to_nat (outname + 1)) 0) outname outname_len
                (depth + Z.of_nat (S (S n)))); reflexivity.
Qed.

(** * The claims *)

(** ** Output budget of the name decoders *)

(** C1.  The name decoders test [outname < terminus] once per label and
    then copy the whole label.  On [overlong_name] with the callers'
    budget of 255 bytes both decoders append 318 bytes before they return
    [dns_err_unterminated] (seen in a 512-byte array), and in the callers'
    256-byte array the copy writes at index 256, past the array; the
    driver does so on a query that carries the name. *)
Theorem name_decoder_writes_past_capacity :
  forall char_signed : bool,
    name_summary (dns_header_parse_name char_signed overlong_name 0 0 319
                    (repeat 0 512) 0 (DNS_OUTNAME_LEN - 1) 0)
      = Returns (dns_err_unterminated, 318, 1, 318)
    /\ name_summary (dns_header_parse_mxname char_signed ([0; 10] ++ overlong_name) 0 0 321
                       (repeat 0 512) 0 (DNS_OUTNAME_LEN - 1) 0)
      = Returns (dns_err_unterminated, 318, 1, 318)
    /\ dns_header_parse_name char_signed overlong_name 0 0 319
         fresh_name 0 (DNS_OUTNAME_LEN - 1) 0
      = Faults (write_out_of_bounds 256)
    /\ dns_header_parse_mxname char_signed ([0; 10] ++ overlong_name) 0 0 321
         fresh_name 0 (DNS_OUTNAME_LEN - 1) 0
      = Faults (write_out_of_bounds 256)
    /\ write_dns_server_data char_signed ip6_text overlong_query []
      = Faults (write_out_of_bounds 256).
Proof.
  intros [|]; conjuncts; evaluate.
Qed.

(** ** Jump depth and termination *)

(** C2.  Both name decoders come to an end on every input (they return,
    or they stop at an access outside the packet or the name array): the
    loop runs at most once per remaining byte and the calls nest at most
    [DNS_MAX_RECURSION_DEPTH] + 1 deep, whatever the pointers in the
    packet aim at.  A chain of 21 pointers ends in
    [dns_err_offset_too_long]; a chain of 20 pointers that reaches an
    uncompressed name which fits the remaining bytes and the output room
    ends in [dns_ok] with that name in the buffer. *)
Theorem name_decoding_terminates_within_depth :
  forall (char_signed : bool) (pkt : list Z),
    (forall hdr name len buf outname outname_len recursion_depth,
        terminates (dns_header_parse_name char_signed pkt hdr name len buf
                      outname outname_len recursion_depth)
        /\ terminates (dns_header_parse_mxname char_signed pkt hdr name len buf
                         outname outname_len recursion_depth))
    /\ (forall total p target buf outname outname_len,
          follow char_signed pkt total 21 p = Some target ->
          0 <= outname -> 2 <= outname_len -> outname + 1 < zlength buf ->
          exists r,
            dns_header_parse_name char_signed pkt 0 p (total - p) buf
              outname outname_len 0 = Returns r
            /\ nr_err r = dns_err_offset_too_long)
    /\ (forall total p before labels rest buf outname outname_len,
          pkt = before ++ wire labels ++ rest ->
          Forall label_ok labels ->
          follow char_signed pkt total 20 p = Some (zlength before) ->
          zlength (dotted labels) < total - zlength before ->
          0 <= outname -> 2 <= outname_len ->
          zlength (dotted labels) < outname_len ->
          outname + outname_len <= zlength buf ->
          dns_header_parse_name char_signed pkt 0 p (total - p) buf
            outname outname_len 0
          = Returns (mk_name_result dns_ok (p + 2) (total - p - 2)
                       (decoded_buffer buf outname labels)
                       (outname + zlength (dotted labels)))).
Proof.
  intros sgn pkt. split; [|split].
  - intros hdr name len buf outname outname_len depth.
    unfold dns_header_parse_name, dns_header_parse_mxname, call_budget.
    split; [apply parse_name_rec_terminates | apply parse_mxname_rec_terminates]; lia.
  - intros total p target buf outname outname_len Hf Hout Hroom Hbuf.
    apply follow_last in Hf as (q & Hf & Hq & Hqt).
    unfold dns_header_parse_name, call_budget.
    change (S (Z.to_nat (DNS_MAX_RECURSION_DEPTH - 0))) with (20 + 1)%nat.
    rewrite (parse_name_rec_chain sgn pkt total outname outname_len Hout Hroom
               19 1 p q buf 0 Hf)
      by (unfold DNS_MAX_RECURSION_DEPTH; lia).
    rewrite (parse_name_rec_limit sgn 0 pkt q (total - q) _ outname outname_len _ target)
      by (rewrite ?zlength_update; unfold DNS_MAX_RECURSION_DEPTH; auto; lia).
    eexists. split; reflexivity.
  - intros total p before labels rest buf outname outname_len
           Hpkt Hok Hf Hlen Hout Hroom Hroom' Hbuf.
    unfold dns_header_parse_name, call_budget.
    change (S (Z.to_nat (DNS_MAX_RECURSION_DEPTH - 0))) with (20 + 1)%nat.
    rewrite (parse_name_rec_chain sgn pkt total outname outname_len Hout Hroom
               19 1 p (zlength before) buf 0 Hf)
      by (unfold DNS_MAX_RECURSION_DEPTH; lia).
    subst pkt.
    rewrite parse_name_rec_wire by (rewrite ?zlength_update; auto; lia).
    cbv beta iota delta [bind]. unfold after_jump. cbn [nr_err nr_buf nr_outname].
    unfold decoded_buffer. rewrite update_twice. reflexivity.
Qed.

Lemma name_decoding_terminates_within_depth_witness :
  (exists r,
      dns_header_parse_name true pointer_loop 0 0 (2 - 0) fresh_name 0 255 0 = Returns r
      /\ nr_err r = dns_err_offset_too_long)
  /\ (exists r,
         dns_header_parse_name true pointer_ladder_21 0 43 (45 - 43) fresh_name 0 255 0
         = Returns r
         /\ nr_err r = dns_err_offset_too_long)
  /\ dns_header_parse_name true pointer_ladder 0 41 (43 - 41) fresh_name 0 255 0
     = Returns (mk_name_result dns_ok (41 + 2) (43 - 41 - 2)
                  (decoded_buffer fresh_name 0 [[97]])
                  (0 + zlength (dotted [[97]]))).
Proof.
  split; [|split].
  - destruct (name_decoding_terminates_within_depth true pointer_loop) as (_ & H21 & _).
    apply (H21 2 0 0 fresh_name 0 255); [reflexivity | lia | lia | vm_compute; reflexivity].
  - destruct (name_decoding_terminates_within_depth true pointer_ladder_21) as (_ & H21 & _).
    apply (H21 45 43 0 fresh_name 0 255); [reflexivity | lia | lia | vm_compute; reflexivity].
  - destruct (name_decoding_terminates_within_depth true pointer_ladder) as (_ & _ & H20).
    apply (H20 43 41 [] [[97]] (ladder 20 3 0) fresh_name 0 255).
    + reflexivity.
    + constructor; [unfold label_ok; simpl; lia | constructor].
    + reflexivity.
    + vm_compute; reflexivity.
    + lia.
    + lia.
    + vm_compute; reflexivity.
    + vm_compute; discriminate.
Defined.

(** ** Label lengths *)

(** C9, as the claim states it, fails: in front of 64 letters and with 66
    bytes remaining, the length byte 64 is answered with
    [dns_err_label_malformed], not with [dns_err_label_too_long]. *)
Lemma label_length_64_not_too_long :
  name_summary (dns_header_parse_name true name_with_length_64 0 0 66
                  fresh_name 0 (DNS_OUTNAME_LEN - 1) 0)
    = Returns (dns_err_label_malformed, 0, 66, 0)
  /\ name_summary (dns_header_parse_name false name_with_length_64 0 0 66
                     fresh_name 0 (DNS_OUTNAME_LEN - 1) 0)
    = Returns (dns_err_label_malformed, 0, 66, 0)
  /\ ~ (exists r,
          dns_header_parse_name true name_with_length_64 0 0 66
            fresh_name 0 (DNS_OUTNAME_LEN - 1) 0 = Returns r
          /\ nr_err r = dns_err_label_too_long).
Proof.
  split; [evaluate | split; [evaluate|]].
  intros (r & Hr & He).
  assert (H : name_summary (Returns r) = Returns (dns_err_label_malformed, 0, 66, 0))
    by (rewrite <- Hr; evaluate).
  simpl in H. rewrite He in H. discriminate.
Qed.

(** C9, amended.  In [dns_header_parse_name] a label of 63 bytes followed
    by the terminator is decoded when more than 64 bytes remain and the
    output has room for its 64 bytes of text and the NUL; a byte 64 where
    a length byte is expected has the tag bits 01 and is answered with
    [dns_err_label_malformed]. *)
Theorem label_63_accepted_64_malformed :
  forall char_signed : bool,
    (forall before l rest hdr len buf outname outname_len recursion_depth,
        length l = 63%nat ->
        64 < len ->
        0 <= outname -> 64 < outname_len -> outname + outname_len <= zlength buf ->
        dns_header_parse_name char_signed (before ++ wire [l] ++ rest) hdr
          (zlength before) len buf outname outname_len recursion_depth
        = Returns (mk_name_result dns_ok (zlength before + 65) (len - 64)
                     (decoded_buffer buf outname [l]) (outname + 64)))
    /\ (forall pkt hdr name len buf outname outname_len recursion_depth,
          load pkt name = Returns 64 ->
          0 < len ->
          0 <= outname -> 2 <= outname_len -> outname + 1 < zlength buf ->
          dns_header_parse_name char_signed pkt hdr name len buf
            outname outname_len recursion_depth
          = Returns (mk_name_result dns_err_label_malformed name len
                       (update buf (Z.to_nat (outname + 1)) 0) outname)).
Proof.
  intros sgn. split.
  - intros before l rest hdr len buf outname outname_len depth Hl Hlen Hout Hroom Hbuf.
    assert (Hd : zlength (dotted [l]) = 64).
    { unfold zlength. simpl. rewrite length_app, length_map, Hl. reflexivity. }
    assert (Hw : zlength (wire [l]) = 65).
    { unfold zlength. simpl. rewrite length_app, Hl. reflexivity. }
    unfold dns_header_parse_name, call_budget.
    rewrite parse_name_rec_wire; rewrite ?Hd, ?Hw; try lia; [reflexivity|].
    constructor; [unfold label_ok; lia | constructor].
  - intros pkt hdr name len buf outname outname_len depth Hb Hlen Hout Hroom Hbuf.
    unfold dns_header_parse_name, call_budget. cbn [parse_name_rec].
    replace ((len <=? 0) || (outname >? outname + outname_len) || (outname_len <? 2))
      with false.
    2:{ symmetry. apply orb_false_iff; split; [apply orb_false_iff; split|].
        - apply Z.leb_gt; lia.
        - rewrite Z.gtb_ltb. apply Z.ltb_ge; lia.
        - apply Z.ltb_ge; lia. }
    rewrite store_in_range by lia. cbv beta iota delta [bind].
    destruct (Z.to_nat len) as [|fuel] eqn:Efuel; [lia|].
    cbn [name_loop].
    rewrite cond_true by (first [apply Z.gtb_lt | apply Z.ltb_lt]; lia).
    rewrite Hb. cbv beta iota delta [bind].
    rewrite char_val_small by lia. reflexivity.
Qed.

Lemma label_63_accepted_64_malformed_witness :
  dns_header_parse_name true ([7; 7] ++ wire [repeat 97 63] ++ [9]) 0
    (zlength [7; 7]) 65 fresh_name 0 255 0
  = Returns (mk_name_result dns_ok (zlength [7; 7] + 65) (65 - 64)
               (decoded_buffer fresh_name 0 [repeat 97 63]) (0 + 64))
  /\ dns_header_parse_name true name_with_length_64 0 0 66 fresh_name 0 255 0
     = Returns (mk_name_result dns_err_label_malformed 0 66
                  (update fresh_name (Z.to_nat (0 + 1)) 0) 0).
Proof.
  destruct (label_63_accepted_64_malformed true) as (H63 & H64).
  split.
  - apply (H63 [7; 7] (repeat 97 63) [9] 0 65 fresh_name 0 255 0);
      [reflexivity | lia | lia | lia | vm_compute; discriminate].
  - apply (H64 name_with_length_64 0 0 66 fresh_name 0 255 0);
      [reflexivity | lia | lia | lia | vm_compute; reflexivity].
Defined.

(** ** The MX preference *)

(** C5.  [dns_header_parse_mxname] tests the tag bits of the first
    preference byte before it skips anything, and [processed_preference]
    is a local of each call.  On [mx_pointer_response] (preference 10, then
    a pointer) the pointer byte is taken for a label length: the decoder
    returns [dns_err_label_too_long] where [char] is unsigned and reads
    past the packet where it is signed.  On
    [mx_high_preference_response] the preference 0xC00C is followed as a
    pointer and the call it starts skips the first two bytes of the
    target, so the exchange [foo] is never read.  On
    [mx_label_pointer_response] the call started by the jump skips two
    bytes of the name at offset 12, which the plain decoder decodes. *)
Theorem mx_preference_skip_misplaced :
  name_summary (dns_header_parse_mxname false mx_pointer_response 0 33 4
                  fresh_name 0 (DNS_OUTNAME_LEN - 1) 0)
    = Returns (dns_err_label_too_long, 33, 2, 0)
  /\ dns_header_parse_mxname true mx_pointer_response 0 33 4
       fresh_name 0 (DNS_OUTNAME_LEN - 1) 0
    = Faults (read_out_of_bounds 37)
  /\ (forall char_signed : bool,
        name_summary (dns_header_parse_mxname char_signed mx_high_preference_response
                        0 33 7 fresh_name 0 (DNS_OUTNAME_LEN - 1) 0)
          = Returns (dns_err_label_too_long, 35, 5, 0)
        /\ name_summary (dns_header_parse_mxname char_signed mx_label_pointer_response
                           0 33 8 fresh_name 0 (DNS_OUTNAME_LEN - 1) 0)
          = Returns (dns_err_label_too_long, 39, 0, 4)
        /\ name_summary (dns_header_parse_name char_signed mx_label_pointer_response
                           0 12 29 fresh_name 4 (DNS_OUTNAME_LEN - 1 - 4) 1)
          = Returns (dns_ok, 17, 25, 8)).
Proof.
  split; [evaluate | split; [evaluate | ]].
  intros [|]; conjuncts; evaluate.
Qed.

(** ** The remaining-length counter *)

(** C3.  [dns_header_parse_mxname] subtracts the two preference bytes from
    the remaining length without comparing them first: on an MX record
    whose rdata is one byte long it leaves the length at -1 and has read
    the byte two places further on.  In the driver the length is not
    reduced by the rdata a record consumed, so on a response that ends
    after the first of two announced answers the next name is read at
    offset 37 of a 37-byte packet. *)
Theorem mx_skip_drives_length_negative :
  forall char_signed : bool,
    name_summary (dns_header_parse_mxname char_signed mx_short_response 0 33 1
                    fresh_name 0 (DNS_OUTNAME_LEN - 1) 0)
      = Returns (dns_err_label_too_long, 33, -1, 0)
    /\ (exists res,
          dns_rdata_print char_signed ip6_text mx_short_response 0 23 33 1 []
            = Returns res /\ rd_len res = -1 /\ rd_len res < 0)
    /\ dns_header_parse_mxname char_signed [0] 0 0 1 fresh_name 0 (DNS_OUTNAME_LEN - 1) 0
      = Faults (read_out_of_bounds 2)
    /\ Z.of_nat (length one_of_two_response) = 37
    /\ write_dns_server_data char_signed ip6_text one_of_two_response []
      = Faults (read_out_of_bounds 37).
Proof.
  intros [|]; conjuncts; try evaluate;
    (eexists; split; [evaluate | split; [reflexivity | simpl; lia]]).
Qed.

(** ** The record header *)

(** Whenever ten bytes or more remain, [dns_rr_parse] accepts every
    rdlength up to the length it was given, header bytes included. *)
Lemma dns_rr_parse_accepts_overhang pkt rr data len rdlength rdl :
  load16 pkt (data + 8) = Returns rdl ->
  sizeof_dns_rr <= len ->
  rdl <= len ->
  dns_rr_parse pkt rr data len rdlength
  = Returns (dns_ok, data, data + sizeof_dns_rr, len - sizeof_dns_rr, rdl).
Proof.
  intros Hrdl Hlen Hle. unfold dns_rr_parse.
  replace (len <? sizeof_dns_rr) with false by (symmetry; apply Z.ltb_ge; lia).
  rewrite Hrdl. cbv beta iota delta [bind].
  replace (len <? rdl) with false by (symmetry; apply Z.ltb_ge; lia).
  reflexivity.
Qed.

(** C8.  [dns_rr_parse] compares the declared rdlength with the length
    that still includes the ten header bytes.  In
    [missing_rdata_response] the record header at offset 23 is the last
    thing in the packet and declares four bytes of rdata: the parse
    succeeds with no byte left, and the driver then reads the address past
    the end of the packet. *)
Theorem rdlength_checked_before_header_consumed :
  forall char_signed : bool,
    Z.of_nat (length missing_rdata_response) = 33
    /\ dns_rr_parse missing_rdata_response 0 23 10 0 = Returns (dns_ok, 23, 33, 0, 4)
    /\ write_dns_server_data char_signed ip6_text missing_rdata_response []
       = Faults (read_out_of_bounds 33).
Proof.
  intros [|]; conjuncts; evaluate.
Qed.

(** ** The payload dispatcher *)

(** C7.  When [dns_rdata_print] returns a code other than [dns_ok], the
    text builder holds exactly the fragments it held before the call.
    The remaining length handed in is below 2^32, as the 16-bit rdlength
    that the driver passes always is: [data_advance] compares it as an
    [unsigned int]. *)
Theorem rdata_error_emits_nothing :
  forall char_signed inet_ntop6 pkt rh rr r len buf res,
    len < 4294967296 ->
    dns_rdata_print char_signed inet_ntop6 pkt rh rr r len buf = Returns res ->
    rd_err res <> dns_ok ->
    rd_buf res = buf.
Proof.
  intros sgn ntop pkt rh rr r len buf res Hlen H Herr.
  unfold dns_rdata_print in H.
  apply bind_returns in H as (rclass & _ & H).
  apply bind_returns in H as (type & _ & H).
  assert (Hgen : forall rdlength,
             match data_advance r len rdlength with
             | (dns_ok, r', len') =>
                 Returns (mk_rdata_result dns_ok r' len'
                            (emit buf (frag_generic type rclass rdlength)))
             | (err, r', len') => Returns (mk_rdata_result err r' len' buf)
             end = Returns res -> rd_buf res = buf).
  { intros rdlength. unfold data_advance.
    destruct (to_uint len <? rdlength); intros H'; inv H'; simpl in *; congruence. }
  destruct (rclass =? class_IN).
  2:{ apply bind_returns in H as (rdlength & _ & H). eauto. }
  destruct (type =? type_A).
  { apply bind_returns in H as (rdlength & _ & H).
    unfold dns_addr_parse in H.
    destruct (len <? sizeof_in_addr); [inv H; reflexivity|].
    destruct (negb (rdlength =? sizeof_in_addr)); [inv H; reflexivity|].
    apply bind_returns in H as (a & _ & H). inv H; simpl in *; congruence. }
  destruct (type =? type_AAAA).
  { apply bind_returns in H as (rdlength & _ & H).
    unfold dns_ipv6_addr_parse in H.
    destruct (len <? sizeof_in6_addr); [inv H; reflexivity|].
    destruct (negb (rdlength =? sizeof_in6_addr)); [inv H; reflexivity|].
    apply bind_returns in H as (a & _ & H). inv H; simpl in *; congruence. }
  destruct (is_name_type type).
  { apply bind_returns in H as (nr & Hnr & H).
    assert (Hle : nr_len nr <= len).
    { destruct (type =? type_MX).
      - eapply parse_mxname_rec_len; eauto.
      - eapply parse_name_rec_len; eauto. }
    destruct (negb (dns_err_eqb (nr_err nr) dns_ok)); [inv H; reflexivity|].
    destruct (nr_len nr - 1 >? 0) eqn:E.
    - rewrite data_advance_rest in H by lia. inv H; simpl in *; congruence.
    - inv H; simpl in *; congruence. }
  destruct (type =? type_TXT).
  { inv H; simpl in *; congruence. }
  apply bind_returns in H as (rdlength & _ & H). eauto.
Qed.

(** the dispatcher fails on the one-byte MX rdata of [mx_short_response]
    and leaves the builder as it was *)
Lemma rdata_error_emits_nothing_witness :
  exists res,
    dns_rdata_print true ip6_text mx_short_response 0 23 33 1 [frag_txt] = Returns res
    /\ rd_err res = dns_err_label_too_long
    /\ rd_buf res = [frag_txt].
Proof.
  exists (mk_rdata_result dns_err_label_too_long 33 (-1) [frag_txt]).
  split; [vm_compute; reflexivity | split; [reflexivity|]].
  apply (rdata_error_emits_nothing true ip6_text mx_short_response 0 23 33 1 [frag_txt]);
    [lia | vm_compute; reflexivity | discriminate].
Defined.

(** C10.  For a record of class IN and type TXT the dispatcher returns
    [dns_ok] with the cursor and the remaining length as it found them,
    and appends the one fragment [frag_txt], whatever the packet holds and
    whatever rdlength says; the fragment is the eleven characters of the
    key [txt], a colon and the value [NYI], both in double quotes. *)
Theorem txt_record_placeholder :
  forall char_signed inet_ntop6 pkt rh rr r len buf,
    load16 pkt (rr + 2) = Returns class_IN ->
    load16 pkt rr = Returns type_TXT ->
    dns_rdata_print char_signed inet_ntop6 pkt rh rr r len buf
      = Returns (mk_rdata_result dns_ok r len (buf ++ [frag_txt]))
    /\ frag_txt = text_of [34; 116; 120; 116; 34; 58; 34; 78; 89; 73; 34].
Proof.
  intros sgn ntop pkt rh rr r len buf Hclass Htype.
  unfold dns_rdata_print. rewrite Hclass, Htype. split; reflexivity.
Qed.

Lemma txt_record_placeholder_witness :
  dns_rdata_print true ip6_text txt_response 0 23 33 5 []
    = Returns (mk_rdata_result dns_ok 33 5 ([] ++ [frag_txt]))
  /\ frag_txt = text_of [34; 116; 120; 116; 34; 58; 34; 78; 89; 73; 34].
Proof.
  apply (txt_record_placeholder true ip6_text txt_response 0 23 33 5 []); reflexivity.
Defined.

(** ** Cursor position after a record *)

(** C4.  After a name that ends in a compression pointer the dispatcher
    advances by one byte less than what is left of the rdata, and after a
    TXT record the driver does the same: the SOA answer of [soa_response]
    ends at offset 57 and the cursor is left at 56, the TXT answer of
    [txt_response] ends at offset 38 and the cursor is left at 37; the A
    record that follows the SOA answer is then read one byte early and
    reported as malformed. *)
Theorem cursor_short_of_rdata_end :
  forall char_signed : bool,
    Z.of_nat (length soa_response) = 57
    /\ driver_summary (write_dns_server_data char_signed ip6_text soa_response [])
       = Returns (text_of [123; 34; 114; 110; 34; 58; 34; 99; 111; 109; 34; 44;
                           34; 114; 99; 34; 58; 48; 44; 34; 114; 114; 34; 58; 91;
                           123; 34; 115; 111; 97; 34; 58; 34; 99; 111; 109; 34; 44;
                           34; 116; 116; 108; 34; 58; 54; 48; 125; 93; 125],
                  dns_ok, 56, 24)
    /\ Z.of_nat (length txt_response) = 38
    /\ (exists text len,
          driver_summary (write_dns_server_data char_signed ip6_text txt_response [])
          = Returns (text, dns_ok, 37, len))
    /\ (exists text r len,
          driver_summary (write_dns_server_data char_signed ip6_text soa_then_a_response [])
          = Returns (text, dns_err_rdata_too_long, r, len)).
Proof.
  intros [|]; conjuncts; evaluate_ex.
Qed.

(** ** Shape of the driver's output *)

(** C6.  On every failure before the payload dispatcher the driver
    returns right after the malformed marker and leaves the document
    open: for the empty input the text is the opening brace, the key
    [malformed] and 0, which is not well bracketed.  On
    [one_of_two_response] and [missing_rdata_response] the driver reads
    past the end of the packet, and on [overlong_query] it writes past
    its name array. *)
Theorem malformed_output_left_open :
  forall char_signed : bool,
    driver_summary (write_dns_server_data char_signed ip6_text [] [])
      = Returns (text_of [123; 34; 109; 97; 108; 102; 111; 114; 109; 101; 100; 34; 58; 48],
                 dns_ok, 0, 0)
    /\ well_bracketed
         (text_of [123; 34; 109; 97; 108; 102; 111; 114; 109; 101; 100; 34; 58; 48]) = false
    /\ write_dns_server_data char_signed ip6_text one_of_two_response []
       = Faults (read_out_of_bounds 37)
    /\ write_dns_server_data char_signed ip6_text missing_rdata_response []
       = Faults (read_out_of_bounds 33)
    /\ write_dns_server_data char_signed ip6_text overlong_query []
       = Faults (write_out_of_bounds 256).
Proof.
  intros [|]; conjuncts; evaluate.
Qed.

(** * Further properties of the decoder *)

(** ** Text of a decoded name *)

Lemma printable_nonzero b : printable b <> 0.
Proof.
  unfold printable, isprint.
  destruct ((32 <=? b) && (b <=? 126)) eqn:E; [|lia].
  apply andb_true_iff in E as [E _]. apply Z.leb_le in E. lia.
Qed.

Lemma dotted_nonzero labels : Forall (fun b => b <> 0) (dotted labels).
Proof.
  induction labels as [|l t IH]; simpl; [constructor|].
  constructor; [lia|]. apply Forall_app. split; [|exact IH].
  apply Forall_forall. intros x Hx. apply in_map_iff in Hx as (b & <- & _).
  apply printable_nonzero.
Qed.

Lemma cstring_of_until_nul xs ys :
  Forall (fun b => b <> 0) xs -> cstring_of (xs ++ 0 :: ys) = text_of xs.
Proof.
  induction 1 as [|b xs Hb Hxs IH]; simpl; [reflexivity|].
  replace (b =? 0) with false by (symmetry; apply Z.eqb_neq; exact Hb).
  unfold text_of in *. simpl. now rewrite IH.
Qed.

Lemma skipn_exact {A} (pre rest : list A) : skipn (length pre) (pre ++ rest) = rest.
Proof. induction pre; simpl; auto. Qed.

Lemma skipn_past {A} (pre rest : list A) n :
  length pre = n -> skipn (S n) (pre ++ rest) = skipn 1 rest.
Proof.
  revert n. induction pre as [|h t IH]; intros n <-; simpl; [reflexivity|].
  destruct t; [reflexivity|]. apply (IH _ eq_refl).
Qed.

Lemma skipn_update_here l : forall n v,
  (n < length l)%nat -> skipn n (update l n v) = v :: skipn (S n) l.
Proof.
  induction l as [|h t IH]; intros [|n] v Hn; simpl in *; try lia; [reflexivity|].
  apply IH. lia.
Qed.

Lemma decoded_buffer_text buf outname labels :
  0 <= outname -> outname + 2 <= zlength buf ->
  cstring_at (decoded_buffer buf outname labels) outname = text_of (dotted labels)
  /\ cstring_at (decoded_buffer buf outname labels) (outname + 1)
     = text_of (tl (dotted labels)).
Proof.
  intros Hout Hbuf. unfold cstring_at, decoded_buffer.
  set (buf1 := update buf (Z.to_nat (outname + 1)) 0).
  assert (Hlen1 : length buf1 = length buf) by apply length_update.
  assert (Hpre : length (firstn (Z.to_nat outname) buf1) = Z.to_nat outname).
  { rewrite length_firstn. unfold zlength in Hbuf. lia. }
  split.
  - rewrite <- Hpre at 1. rewrite skipn_exact.
    apply cstring_of_until_nul, dotted_nonzero.
  - replace (Z.to_nat (outname + 1)) with (S (Z.to_nat outname)) by lia.
    rewrite (skipn_past _ _ _ Hpre).
    pose proof (dotted_nonzero labels) as Hnz.
    destruct (dotted labels) as [|d ds] eqn:Ed.
    + change (skipn 1 ([] ++ 0 :: skipn (S (length (@nil Z))) (skipn (Z.to_nat outname) buf1)))
        with (skipn 1 (skipn (Z.to_nat outname) buf1)).
      rewrite skipn_skipn.
      replace (1 + Z.to_nat outname)%nat with (Z.to_nat (outname + 1)) by lia.
      unfold buf1. rewrite skipn_update_here by (unfold zlength in Hbuf; lia).
      reflexivity.
    + simpl. apply cstring_of_until_nul. now inversion Hnz.
Qed.

(** X: round trip of an uncompressed name *)
(** X1.  Round trip of an uncompressed name.  Wherever the wire form of a
    list of labels lies in the packet, [dns_header_parse_name] returns
    [dns_ok], leaves the caller's pointer just behind the terminator and
    the remaining length reduced by the label bytes only (not by the
    terminator), and leaves in the array the dotted text and its NUL:
    read as a C string from [outname] it is the dotted name, and from
    [outname + 1], as the callers print it, the name without its first
    dot. *)
Theorem uncompressed_name_round_trip :
  forall char_signed before labels rest hdr len buf outname outname_len recursion_depth,
    Forall label_ok labels ->
    zlength (dotted labels) < len ->
    0 <= outname -> 2 <= outname_len ->
    zlength (dotted labels) < outname_len ->
    outname + outname_len <= zlength buf ->
    dns_header_parse_name char_signed (before ++ wire labels ++ rest) hdr
      (zlength before) len buf outname outname_len recursion_depth
    = Returns (mk_name_result dns_ok (zlength before + zlength (wire labels))
                 (len - zlength (dotted labels))
                 (decoded_buffer buf outname labels)
                 (outname + zlength (dotted labels)))
    /\ cstring_at (decoded_buffer buf outname labels) outname = text_of (dotted labels)
    /\ cstring_at (decoded_buffer buf outname labels) (outname + 1)
       = text_of (tl (dotted labels)).
Proof.
  intros sgn before labels rest hdr len buf outname outname_len depth
         Hok Hlen Hout Hroom2 Hroom Hbuf.
  split.
  - unfold dns_header_parse_name, call_budget. apply parse_name_rec_wire; assumption.
  - apply decoded_buffer_text; lia.
Qed.

Lemma uncompressed_name_round_trip_witness :
  dns_header_parse_name true ([7] ++ wire [[119; 119; 119]; [99; 111; 109]] ++ [9]) 0
    (zlength [7]) 9 fresh_name 0 255 0
  = Returns (mk_name_result dns_ok (zlength [7] + zlength (wire [[119; 119; 119]; [99; 111; 109]]))
               (9 - zlength (dotted [[119; 119; 119]; [99; 111; 109]]))
               (decoded_buffer fresh_name 0 [[119; 119; 119]; [99; 111; 109]])
               (0 + zlength (dotted [[119; 119; 119]; [99; 111; 109]])))
  /\ cstring_at (decoded_buffer fresh_name 0 [[119; 119; 119]; [99; 111; 109]]) 0
     = text_of (dotted [[119; 119; 119]; [99; 111; 109]])
  /\ cstring_at (decoded_buffer fresh_name 0 [[119; 119; 119]; [99; 111; 109]]) (0 + 1)
     = text_of (tl (dotted [[119; 119; 119]; [99; 111; 109]])).
Proof.
  apply (uncompressed_name_round_trip true [7] [[119; 119; 119]; [99; 111; 109]] [9]
           0 9 fresh_name 0 255 0).
  - repeat constructor; unfold label_ok; simpl; lia.
  - vm_compute; reflexivity.
  - lia.
  - lia.
  - vm_compute; reflexivity.
  - vm_compute; discriminate.
Defined.

(** ** Bytes *)

Lemma load_in_range pkt off b :
  load pkt off = Returns b -> 0 <= off < zlength pkt.
Proof.
  unfold load, in_range, zlength.
  destruct ((0 <=? off) && (off <? Z.of_nat (length pkt))) eqn:E; [|discriminate].
  apply andb_true_iff in E as [E1 E2]. apply Z.leb_le in E1. apply Z.ltb_lt in E2. lia.
Qed.

Lemma load_byte pkt off b : all_bytes pkt -> load pkt off = Returns b -> 0 <= b < 256.
Proof.
  intros Hb H. pose proof (load_in_range _ _ _ H) as Hr.
  unfold load in H. destruct (in_range off (Z.of_nat (length pkt))); [|discriminate].
  injection H as <-.
  unfold all_bytes in Hb. rewrite Forall_forall in Hb. apply Hb.
  apply nth_In. unfold zlength in Hr. lia.
Qed.

Lemma load_within pkt off :
  0 <= off < zlength pkt -> exists b, load pkt off = Returns b.
Proof.
  intros H. unfold load, in_range. fold (zlength pkt).
  rewrite cond_true by (first [apply Z.leb_le | apply Z.ltb_lt]; lia). eauto.
Qed.

Lemma label_tag_range ch :
  -128 <= ch < 256 -> char_is_label ch = true -> 0 <= ch < 64.
Proof.
  unfold char_is_label. intros Hr H. apply Z.eqb_eq in H.
  assert (H6 : Z.testbit ch 6 = false).
  { assert (Hb : Z.testbit (Z.land ch 192) 6 = false) by (rewrite H; apply Z.bits_0).
    rewrite Z.land_spec in Hb. change (Z.testbit 192 6) with true in Hb.
    now rewrite andb_true_r in Hb. }
  assert (H7 : Z.testbit ch 7 = false).
  { assert (Hb : Z.testbit (Z.land ch 192) 7 = false) by (rewrite H; apply Z.bits_0).
    rewrite Z.land_spec in Hb. change (Z.testbit 192 7) with true in Hb.
    now rewrite andb_true_r in Hb. }
  pose proof (Z.testbit_spec' ch 6 ltac:(lia)) as S6.
  pose proof (Z.testbit_spec' ch 7 ltac:(lia)) as S7.
  rewrite H6 in S6. rewrite H7 in S7. simpl Z.b2z in *.
  change (2 ^ 6) with 64 in S6. change (2 ^ 7) with 128 in S7.
  Z.div_mod_to_equations. lia.
Qed.

Lemma char_val_range sgn b : 0 <= b < 256 -> -128 <= char_val sgn b < 256.
Proof.
  intros Hb. unfold char_val. destruct sgn; simpl; [|lia].
  destruct (128 <=? b) eqn:E; [apply Z.leb_le in E|apply Z.leb_gt in E]; lia.
Qed.

Lemma label_step_bounds sgn b :
  0 <= b < 256 -> char_is_label (char_val sgn b) = true ->
  0 <= char_val sgn b < 64 /\ to_uchar (char_val sgn b + 1) = char_val sgn b + 1.
Proof.
  intros Hb Hl. pose proof (label_tag_range _ (char_val_range sgn b Hb) Hl) as Hr.
  split; [exact Hr|]. unfold to_uchar. apply Z.mod_small. lia.
Qed.

(** ** Cursor accounting of the plain decoder *)

Lemma follow_offset_accounted pkt hdr recurse depth offsetlen name len buf outname outname_len r :
  follow_offset pkt hdr recurse depth offsetlen name len buf outname outname_len = Returns r ->
  accounted name len r.
Proof.
  unfold follow_offset, uint16_parse, sizeof_uint16, accounted.
  destruct (len <? 2) eqn:E.
  - intros H; inv H; simpl; lia.
  - apply Z.ltb_ge in E. intros H. apply bind_returns in H as (v & _ & H).
    destruct (depth >=? DNS_MAX_RECURSION_DEPTH).
    + inv H; simpl; lia.
    + apply bind_returns in H as (r' & _ & H). inv H; simpl; lia.
Qed.

Lemma name_loop_accounted sgn pkt hdr recurse depth terminus offsetlen :
  all_bytes pkt ->
  forall fuel c name len buf outname outname_len r,
    name = c ->
    name_loop sgn pkt hdr recurse depth terminus offsetlen fuel c name len buf
              outname outname_len = Returns r ->
    accounted name len r.
Proof.
  intros Hbytes.
  induction fuel as [|fuel IH]; intros c name len buf outname outname_len r Hc;
    cbn [name_loop].
  - destruct ((len >? 0) && (outname <? terminus)); intros H; inv H.
    unfold accounted; simpl; lia.
  - destruct ((len >? 0) && (outname <? terminus)) eqn:Ecnd;
      [|intros H; inv H; unfold accounted; simpl; lia].
    apply andb_true_iff in Ecnd as [Elen _]. apply Z.gtb_lt in Elen.
    intros H. apply bind_returns in H as (b & Hb & H).
    pose proof (load_byte _ _ _ Hbytes Hb) as Hbr.
    destruct (char_is_label (char_val sgn b)) eqn:El.
    + destruct (label_step_bounds sgn b Hbr El) as [Hch Hjump].
      destruct ((char_val sgn b <? 64) && (len >? char_val sgn b)) eqn:Ec2;
        [|inv H; unfold accounted; simpl; lia].
      apply andb_true_iff in Ec2 as [_ Egt]. apply Z.gtb_lt in Egt.
      destruct (char_val sgn b =? 0).
      * apply bind_returns in H as (buf' & _ & H). inv H. unfold accounted; simpl; lia.
      * apply bind_returns in H as (buf1 & _ & H).
        apply bind_returns in H as ([buf2 outname2] & _ & H).
        rewrite Hjump in H. apply IH in H; [|lia].
        unfold accounted in *. lia.
    + destruct (char_is_offset (char_val sgn b)).
      * eapply follow_offset_accounted; eauto.
      * inv H. unfold accounted; simpl; lia.
Qed.

(** X2.  Cursor accounting of [dns_header_parse_name] on a packet of
    bytes, whatever it returns: the caller's pointer never moves back,
    the remaining length never grows and never turns negative, and
    pointer plus length moves by at most one (the terminator byte). *)
Theorem plain_decoder_cursor_accounting :
  forall char_signed pkt hdr name len buf outname outname_len recursion_depth r,
    all_bytes pkt ->
    dns_header_parse_name char_signed pkt hdr name len buf outname outname_len
      recursion_depth = Returns r ->
    name <= nr_name r
    /\ nr_len r <= len
    /\ (0 <= len -> 0 <= nr_len r)
    /\ name + len <= nr_name r + nr_len r <= name + len + 1.
Proof.
  intros sgn pkt hdr name len buf outname outname_len depth r Hbytes.
  unfold dns_header_parse_name, call_budget. cbn [parse_name_rec].
  destruct ((len <=? 0) || (outname >? outname + outname_len) || (outname_len <? 2)).
  - intros H; inv H; simpl; lia.
  - intros H. apply bind_returns in H as (buf1 & _ & H).
    eapply name_loop_accounted in H; eauto.
Qed.

(** ** Memory safety of the plain decoder *)

Lemma store_within buf idx v :
  0 <= idx < zlength buf ->
  exists buf', store buf idx v = Returns buf' /\ zlength buf' = zlength buf.
Proof.
  intros H. rewrite store_in_range by exact H.
  eexists. split; [reflexivity|apply zlength_update].
Qed.

Lemma copy_label_within pkt c :
  forall n i buf outname,
    0 <= c + i -> c + i + Z.of_nat n <= zlength pkt ->
    0 <= outname -> outname + Z.of_nat n <= zlength buf ->
    exists buf', copy_label pkt c n i buf outname = Returns (buf', outname + Z.of_nat n)
                 /\ zlength buf' = zlength buf.
Proof.
  induction n as [|n IH]; intros i buf outname Hc Hp Ho Hb.
  - simpl. exists buf. split; [|reflexivity]. do 2 f_equal. lia.
  - cbn [copy_label].
    destruct (load_within pkt (c + i)) as (b & ->); [lia|].
    cbv beta iota delta [bind].
    destruct (store_within buf outname (printable b)) as (buf' & -> & Hl); [lia|].
    cbv beta iota delta [bind].
    destruct (IH (i + 1) buf' (outname + 1)) as (buf'' & -> & Hl'); try lia.
    exists buf''. split; [|lia]. do 2 f_equal. lia.
Qed.

Lemma name_loop_within sgn pkt hdr recurse depth terminus offsetlen :
  all_bytes pkt -> 0 <= hdr -> hdr + offsetlen <= zlength pkt ->
  (depth < DNS_MAX_RECURSION_DEPTH ->
   forall t len' buf' on onl,
     0 <= t -> t + len' = hdr + offsetlen ->
     0 <= on -> 0 <= onl < two_32 -> on + onl + 63 <= zlength buf' ->
     within buf' (on + onl + 63) (recurse t len' buf' on onl)) ->
  forall fuel c name len buf outname outname_len,
    len <= Z.of_nat fuel ->
    name = c -> 0 <= c -> c + len = hdr + offsetlen ->
    0 <= outname -> terminus + 63 <= zlength buf ->
    terminus - two_32 < outname -> outname <= terminus + 63 ->
    outname_len = to_uint (terminus - outname) ->
    within buf (terminus + 63)
      (name_loop sgn pkt hdr recurse depth terminus offsetlen fuel c name len buf
                 outname outname_len).
Proof.
  intros Hbytes Hhdr Htotal Hrec.
  induction fuel as [|fuel IH];
    intros c name len buf outname outname_len Hfuel Hname Hc Hsum Hout Hbuf Hlow Hhigh Honl;
    cbn [name_loop].
  - replace (len >? 0) with false by (symmetry; rewrite Z.gtb_ltb; apply Z.ltb_ge; lia).
    eexists. split; [reflexivity|]. simpl. split; [reflexivity|lia].
  - destruct ((len >? 0) && (outname <? terminus)) eqn:Ecnd.
    2:{ eexists. split; [reflexivity|]. simpl. split; [reflexivity|lia]. }
    apply andb_true_iff in Ecnd as [Elen Eout].
    apply Z.gtb_lt in Elen. apply Z.ltb_lt in Eout.
    destruct (load_within pkt c) as (b & Hb); [lia|].
    rewrite Hb. cbv beta iota delta [bind].
    pose proof (load_byte _ _ _ Hbytes Hb) as Hbr.
    destruct (char_is_label (char_val sgn b)) eqn:El.
    + destruct (label_step_bounds sgn b Hbr El) as [Hch Hjump].
      destruct ((char_val sgn b <? 64) && (len >? char_val sgn b)) eqn:Ec2.
      2:{ eexists. split; [reflexivity|]. simpl. split; [reflexivity|lia]. }
      apply andb_true_iff in Ec2 as [_ Egt]. apply Z.gtb_lt in Egt.
      destruct (char_val sgn b =? 0) eqn:Ez.
      * destruct (store_within buf outname 0) as (buf' & -> & Hl); [lia|].
        cbv beta iota delta [bind].
        eexists. split; [reflexivity|]. simpl. split; [exact Hl|lia].
      * apply Z.eqb_neq in Ez.
        destruct (store_within buf outname 46) as (buf1 & -> & Hl1); [lia|].
        cbv beta iota delta [bind]. rewrite Hjump.
        destruct (copy_label_within pkt c (Z.to_nat (char_val sgn b + 1 - 1)) 1
                                    buf1 (outname + 1))
          as (buf2 & -> & Hl2); try lia.
        cbv beta iota delta [bind].
        replace (outname + 1 + Z.of_nat (Z.to_nat (char_val sgn b + 1 - 1)))
          with (outname + (char_val sgn b + 1)) by lia.
        destruct (IH (c + (char_val sgn b + 1)) (name + (char_val sgn b + 1))
                     (len - (char_val sgn b + 1)) buf2
                     (outname + (char_val sgn b + 1))
                     (to_uint (outname_len - (char_val sgn b + 1))))
          as (r & Hr & Hlr & Hor); try lia.
        { subst outname_len. unfold to_uint.
          rewrite Zminus_mod_idemp_l. f_equal. lia. }
        exists r. split; [exact Hr|]. split; [lia|exact Hor].
    + destruct (char_is_offset (char_val sgn b)).
      2:{ eexists. split; [reflexivity|]. simpl. split; [reflexivity|lia]. }
      unfold follow_offset, uint16_parse, sizeof_uint16.
      destruct (len <? 2) eqn:E2.
      { eexists. split; [reflexivity|]. simpl. split; [reflexivity|lia]. }
      apply Z.ltb_ge in E2. subst name.
      unfold load16. rewrite Hb. cbv beta iota delta [bind].
      destruct (load_within pkt (c + 1)) as (lo & ->); [lia|].
      cbv beta iota delta [bind].
      destruct (depth >=? DNS_MAX_RECURSION_DEPTH) eqn:Ed.
      { eexists. split; [reflexivity|]. simpl. split; [reflexivity|lia]. }
      rewrite Z.geb_leb in Ed. apply Z.leb_gt in Ed.
      assert (Hland : 0 <= Z.land (b * 256 + lo) 16383) by (apply Z.land_nonneg; lia).
      assert (Honl' : outname_len = terminus - outname).
      { subst outname_len. unfold to_uint. apply Z.mod_small. unfold two_32 in *. lia. }
      destruct (Hrec Ed (hdr + Z.land (b * 256 + lo) 16383)
                     (offsetlen - Z.land (b * 256 + lo) 16383) buf outname outname_len)
        as (r & -> & Hlr & Hor); try (unfold two_32 in *; lia).
      cbv beta iota delta [bind].
      eexists. split; [reflexivity|]. simpl. split; [exact Hlr|lia].
Qed.

Lemma parse_name_rec_within sgn pkt hdr :
  all_bytes pkt -> 0 <= hdr ->
  forall k name len buf outname outname_len depth,
    (Z.to_nat (DNS_MAX_RECURSION_DEPTH - depth) < k)%nat ->
    0 <= name -> name + len <= zlength pkt ->
    0 <= outname -> 0 <= outname_len < two_32 ->
    outname + outname_len + 63 <= zlength buf ->
    within buf (outname + outname_len + 63)
      (parse_name_rec sgn k pkt hdr name len buf outname outname_len depth).
Proof.
  intros Hbytes Hhdr.
  induction k as [|k IH]; intros name len buf outname outname_len depth Hk Hn Hsum Ho Honl Hbuf;
    [lia|].
  cbn [parse_name_rec].
  destruct ((len <=? 0) || (outname >? outname + outname_len) || (outname_len <? 2)) eqn:E.
  { eexists. split; [reflexivity|]. simpl. split; [reflexivity|lia]. }
  apply orb_false_iff in E as [E E3]. apply orb_false_iff in E as [E1 E2].
  apply Z.leb_gt in E1. apply Z.ltb_ge in E3.
  destruct (store_within buf (outname + 1) 0) as (buf1 & -> & Hl1); [lia|].
  cbv beta iota delta [bind].
  destruct (name_loop_within sgn pkt hdr
              (fun offsetname offsetlen' buf' outname' outname_len' =>
                 parse_name_rec sgn k pkt hdr offsetname offsetlen' buf' outname'
                                outname_len' (depth + 1))
              depth (outname + outname_len) (name - hdr + len) Hbytes Hhdr)
    with (fuel := Z.to_nat len) (c := name) (name := name) (len := len) (buf := buf1)
         (outname := outname) (outname_len := outname_len)
    as (r & Hr & Hlr & Hor); try (unfold two_32 in *; lia).
  - intros Hd t len' buf' on onl Ht Hs Hon Honl' Hb'.
    apply IH; unfold DNS_MAX_RECURSION_DEPTH in *; lia.
  - unfold to_uint. rewrite Z.mod_small; unfold two_32 in *; lia.
  - exists r. split; [exact Hr|]. split; [lia|exact Hor].
Qed.

(** X3.  Memory safety of [dns_header_parse_name].  When the cursor lies
    within a packet of bytes and the array reaches 63 bytes beyond
    [outname + outname_len], the decoder returns (no read outside the
    packet, no write outside the array, whatever the labels and pointers
    are), the array keeps its size and the write position ends at most 63
    bytes beyond the budget. *)
Theorem plain_decoder_memory_safe :
  forall char_signed pkt hdr name len buf outname outname_len recursion_depth,
    all_bytes pkt ->
    0 <= hdr -> 0 <= name -> name + len <= zlength pkt ->
    0 <= outname -> 0 <= outname_len < 4294967296 ->
    outname + outname_len + 63 <= zlength buf ->
    exists r,
      dns_header_parse_name char_signed pkt hdr name len buf outname outname_len
        recursion_depth = Returns r
      /\ zlength (nr_buf r) = zlength buf
      /\ nr_outname r <= outname + outname_len + 63.
Proof.
  intros sgn pkt hdr name len buf outname outname_len depth
         Hbytes Hhdr Hname Hsum Hout Honl Hbuf.
  unfold dns_header_parse_name, call_budget.
  apply parse_name_rec_within; auto; unfold two_32; lia.
Qed.

Lemma plain_decoder_memory_safe_witness :
  exists r,
    dns_header_parse_name true overlong_name 0 0 319 (repeat 0 318) 0 255 0 = Returns r
    /\ zlength (nr_buf r) = zlength (repeat 0 318)
    /\ nr_outname r <= 0 + 255 + 63.
Proof.
  apply (plain_decoder_memory_safe true overlong_name 0 0 319 (repeat 0 318) 0 255 0).
  - unfold all_bytes, overlong_name, label_of.
    repeat (apply Forall_app; split);
      try (apply Forall_cons; [simpl; lia|]);
      try (apply Forall_forall; intros x Hx; apply repeat_spec in Hx; subst; lia);
      constructor.
  - lia.
  - lia.
  - vm_compute; discriminate.
  - lia.
  - lia.
  - vm_compute; discriminate.
Defined.

Lemma plain_decoder_cursor_accounting_witness :
  0 <= nr_name (mk_name_result dns_ok 9 3 (decoded_buffer fresh_name 0 [[119; 119; 119]; [99; 111; 109]]) 8)
  /\ nr_len (mk_name_result dns_ok 9 3 (decoded_buffer fresh_name 0 [[119; 119; 119]; [99; 111; 109]]) 8) <= 11
  /\ (0 <= 11 ->
      0 <= nr_len (mk_name_result dns_ok 9 3 (decoded_buffer fresh_name 0 [[119; 119; 119]; [99; 111; 109]]) 8))
  /\ 0 + 11 <= nr_name (mk_name_result dns_ok 9 3 (decoded_buffer fresh_name 0 [[119; 119; 119]; [99; 111; 109]]) 8)
              + nr_len (mk_name_result dns_ok 9 3 (decoded_buffer fresh_name 0 [[119; 119; 119]; [99; 111; 109]]) 8)
     <= 0 + 11 + 1.
Proof.
  apply (plain_decoder_cursor_accounting true
           (wire [[119; 119; 119]; [99; 111; 109]] ++ [0; 1]) 0 0 11 fresh_name 0 255 0).
  - unfold all_bytes. simpl. repeat (apply Forall_cons; [lia|]). constructor.
  - vm_compute; reflexivity.
Defined.

(** ** Tags *)

Lemma tag_table : forallb tag_check (map Z.of_nat (seq 0 256)) = true.
Proof. vm_compute; reflexivity. Qed.

Lemma tag_of_byte sgn b :
  0 <= b < 256 ->
  char_is_label (char_val sgn b) = (b <? 64)
  /\ char_is_offset (char_val sgn b) = (192 <=? b).
Proof.
  intros Hb. pose proof tag_table as T. rewrite forallb_forall in T.
  assert (Hin : In b (map Z.of_nat (seq 0 256))).
  { apply in_map_iff. exists (Z.to_nat b). split; [lia|]. apply in_seq. lia. }
  apply T in Hin. unfold tag_check in Hin.
  apply andb_true_iff in Hin as [Hin H4]. apply andb_true_iff in Hin as [Hin H3].
  apply andb_true_iff in Hin as [H1 H2].
  apply Bool.eqb_prop in H1, H2, H3, H4.
  destruct sgn; auto.
Qed.

(** ** One jump *)

Lemma header_parse_name_jump sgn pkt p len buf outname outname_len depth t :
  pointer_at sgn pkt p = Some t ->
  2 <= len ->
  depth < DNS_MAX_RECURSION_DEPTH ->
  0 <= outname -> 2 <= outname_len -> outname + 1 < zlength buf ->
  dns_header_parse_name sgn pkt 0 p len buf outname outname_len depth
  = r <- dns_header_parse_name sgn pkt 0 t (p + len - t)
           (update buf (Z.to_nat (outname + 1)) 0)
           outname outname_len (depth + 1) ;;
    Returns (after_jump p len r).
Proof.
  intros Hp Hlen Hd Hout Hroom Hbuf.
  unfold dns_header_parse_name, call_budget.
  replace (Z.to_nat (DNS_MAX_RECURSION_DEPTH - depth))
    with (S (Z.to_nat (DNS_MAX_RECURSION_DEPTH - (depth + 1)))) by lia.
  apply parse_name_rec_jump; assumption.
Qed.

(** X4.  One jump.  Below the depth limit, decoding at a compression
    pointer is decoding at its target one level deeper, with the length
    that remains from the target to the end of the message; the caller's
    own cursor ends just behind the two pointer bytes, whatever the
    decoding at the target returns. *)
Theorem pointer_jump_is_transparent :
  forall char_signed pkt p len buf outname outname_len recursion_depth target,
    pointer_at char_signed pkt p = Some target ->
    2 <= len ->
    recursion_depth < DNS_MAX_RECURSION_DEPTH ->
    0 <= outname -> 2 <= outname_len -> outname + 1 < zlength buf ->
    dns_header_parse_name char_signed pkt 0 p len buf outname outname_len recursion_depth
    = r <- dns_header_parse_name char_signed pkt 0 target (p + len - target)
             (update buf (Z.to_nat (outname + 1)) 0)
             outname outname_len (recursion_depth + 1) ;;
      Returns (after_jump p len r).
Proof. intros. apply header_parse_name_jump; assumption. Qed.

Lemma pointer_jump_is_transparent_witness :
  dns_header_parse_name true soa_response 0 33 24 fresh_name 0 255 0
  = r <- dns_header_parse_name true soa_response 0 12 (33 + 24 - 12)
           (update fresh_name (Z.to_nat (0 + 1)) 0) 0 255 (0 + 1) ;;
    Returns (after_jump 33 24 r).
Proof.
  apply (pointer_jump_is_transparent true soa_response 33 24 fresh_name 0 255 0 12);
    [reflexivity | lia | reflexivity | lia | lia | vm_compute; reflexivity].
Defined.

(** X5.  A pointer aimed at or beyond the end of the message is answered
    with [dns_err_unterminated], and nothing is read at its target. *)
Theorem pointer_past_the_end_is_unterminated :
  forall char_signed pkt p len buf outname outname_len recursion_depth target,
    pointer_at char_signed pkt p = Some target ->
    2 <= len ->
    p + len <= target ->
    recursion_depth < DNS_MAX_RECURSION_DEPTH ->
    0 <= outname -> 2 <= outname_len -> outname + 1 < zlength buf ->
    dns_header_parse_name char_signed pkt 0 p len buf outname outname_len recursion_depth
    = Returns (mk_name_result dns_err_unterminated (p + 2) (len - 2)
                 (update buf (Z.to_nat (outname + 1)) 0) outname).
Proof.
  intros sgn pkt p len buf outname outname_len depth t Hp Hlen Hpast Hd Hout Hroom Hbuf.
  rewrite (header_parse_name_jump sgn pkt p len buf outname outname_len depth t)
    by assumption.
  unfold dns_header_parse_name, call_budget. cbn [parse_name_rec].
  replace (p + len - t <=? 0) with true by (symmetry; apply Z.leb_le; lia).
  reflexivity.
Qed.

Lemma pointer_past_the_end_is_unterminated_witness :
  dns_header_parse_name true [192; 9; 0] 0 0 3 fresh_name 0 255 0
  = Returns (mk_name_result dns_err_unterminated (0 + 2) (3 - 2)
               (update fresh_name (Z.to_nat (0 + 1)) 0) 0).
Proof.
  apply (pointer_past_the_end_is_unterminated true [192; 9; 0] 0 3 fresh_name 0 255 0 9);
    [reflexivity | lia | lia | reflexivity | lia | lia | vm_compute; reflexivity].
Defined.

(** ** The first token *)

Ltac enter_name_loop :=
  unfold dns_header_parse_name, call_budget; cbn [parse_name_rec];
  match goal with
  | |- context [(?len <=? 0) || (?o >? ?o + ?ol) || (?ol <? 2)] =>
      replace ((len <=? 0) || (o >? o + ol) || (ol <? 2)) with false
        by (symmetry; apply orb_false_iff; split; [apply orb_false_iff; split|];
            [apply Z.leb_gt; lia | rewrite Z.gtb_ltb; apply Z.ltb_ge; lia
             | apply Z.ltb_ge; lia])
  end;
  rewrite store_in_range by lia; cbv beta iota delta [bind];
  match goal with
  | |- context [Z.to_nat ?len] =>
      let f := fresh "fuel" in
      destruct (Z.to_nat len) as [|f] eqn:?; [lia|]
  end;
  cbn [name_loop mxname_loop];
  rewrite cond_true by (first [apply Z.gtb_lt | apply Z.ltb_lt]; lia).

(** X6.  The first byte of a name, by its value: a byte from 64 to 191
    (tag bits 01 or 10) gives [dns_err_label_malformed]; a length byte
    that is not below the remaining length gives
    [dns_err_label_too_long]; a pointer byte with fewer than two bytes
    remaining gives [dns_err_offset_too_long].  The caller's cursor is
    left where it was. *)
Theorem first_token_errors :
  forall char_signed pkt hdr name len buf outname outname_len recursion_depth b,
    load pkt name = Returns b ->
    0 <= b < 256 ->
    0 < len ->
    0 <= outname -> 2 <= outname_len -> outname + 1 < zlength buf ->
    (64 <= b < 192 ->
     dns_header_parse_name char_signed pkt hdr name len buf outname outname_len
       recursion_depth
     = Returns (mk_name_result dns_err_label_malformed name len
                  (update buf (Z.to_nat (outname + 1)) 0) outname))
    /\ (1 <= b < 64 -> len <= b ->
        dns_header_parse_name char_signed pkt hdr name len buf outname outname_len
          recursion_depth
        = Returns (mk_name_result dns_err_label_too_long name len
                     (update buf (Z.to_nat (outname + 1)) 0) outname))
    /\ (192 <= b -> len < 2 ->
        dns_header_parse_name char_signed pkt hdr name len buf outname outname_len
          recursion_depth
        = Returns (mk_name_result dns_err_offset_too_long name len
                     (update buf (Z.to_nat (outname + 1)) 0) outname)).
Proof.
  intros sgn pkt hdr name len buf outname outname_len depth b Hb Hbr Hlen Hout Hroom Hbuf.
  destruct (tag_of_byte sgn b Hbr) as [Hl Ho].
  split; [|split].
  - intros Hres. enter_name_loop. rewrite Hb. cbv beta iota delta [bind].
    rewrite Hl, Ho.
    replace (b <? 64) with false by (symmetry; apply Z.ltb_ge; lia).
    replace (192 <=? b) with false by (symmetry; apply Z.leb_gt; lia).
    reflexivity.
  - intros Hlab Hshort. enter_name_loop. rewrite Hb. cbv beta iota delta [bind].
    rewrite Hl. rewrite char_val_small by lia.
    replace (b <? 64) with true by (symmetry; apply Z.ltb_lt; lia).
    replace (len >? b) with false by (symmetry; rewrite Z.gtb_ltb; apply Z.ltb_ge; lia).
    reflexivity.
  - intros Hoff Hshort. enter_name_loop. rewrite Hb. cbv beta iota delta [bind].
    rewrite Hl, Ho.
    replace (b <? 64) with false by (symmetry; apply Z.ltb_ge; lia).
    replace (192 <=? b) with true by (symmetry; apply Z.leb_le; lia).
    unfold follow_offset, uint16_parse, sizeof_uint16.
    replace (len <? 2) with true by (symmetry; apply Z.ltb_lt; lia).
    reflexivity.
Qed.

Lemma first_token_errors_witness :
  dns_header_parse_name true [128; 3; 0] 0 0 1 fresh_name 0 255 0
  = Returns (mk_name_result dns_err_label_malformed 0 1
               (update fresh_name (Z.to_nat (0 + 1)) 0) 0)
  /\ dns_header_parse_name true [5; 97; 98] 0 0 3 fresh_name 0 255 0
     = Returns (mk_name_result dns_err_label_too_long 0 3
                  (update fresh_name (Z.to_nat (0 + 1)) 0) 0)
  /\ dns_header_parse_name true [192] 0 0 1 fresh_name 0 255 0
     = Returns (mk_name_result dns_err_offset_too_long 0 1
                  (update fresh_name (Z.to_nat (0 + 1)) 0) 0).
Proof.
  split; [|split].
  - destruct (first_token_errors true [128; 3; 0] 0 0 1 fresh_name 0 255 0 128)
      as (H & _ & _);
      [reflexivity | lia | lia | lia | lia | vm_compute; reflexivity | apply H; lia].
  - destruct (first_token_errors true [5; 97; 98] 0 0 3 fresh_name 0 255 0 5)
      as (_ & H & _);
      [reflexivity | lia | lia | lia | lia | vm_compute; reflexivity | apply H; lia].
  - destruct (first_token_errors true [192] 0 0 1 fresh_name 0 255 0 192)
      as (_ & _ & H);
      [reflexivity | lia | lia | lia | lia | vm_compute; reflexivity | apply H; lia].
Defined.

(** ** The MX decoder behind the preference *)

Lemma mxname_loop_processed sgn pkt hdr recurse depth terminus offsetlen :
  forall fuel c name len buf outname outname_len,
    mxname_loop sgn pkt hdr recurse depth terminus offsetlen fuel true c name len buf
                outname outname_len
    = name_loop sgn pkt hdr recurse depth terminus offsetlen fuel c name len buf
                outname outname_len.
Proof.
  induction fuel as [|fuel IH]; intros c name len buf outname outname_len;
    cbn [mxname_loop name_loop]; [reflexivity|].
  destruct ((len >? 0) && (outname <? terminus)); [|reflexivity].
  destruct (load pkt c) as [b| |] eqn:Hb; cbv beta iota delta [bind]; try reflexivity.
  destruct (char_is_label (char_val sgn b)); [|reflexivity].
  rewrite ?Hb. cbv beta iota delta [bind].
  destruct ((char_val sgn b <? 64) && (len >? char_val sgn b)); [|reflexivity].
  destruct (char_val sgn b =? 0); [reflexivity|].
  destruct (store buf outname 46) as [buf1| |]; cbv beta iota delta [bind]; try reflexivity.
  destruct (copy_label pkt c (Z.to_nat (to_uchar (char_val sgn b + 1) - 1)) 1 buf1
                       (outname + 1)) as [[buf2 outname2]| |];
    cbv beta iota delta [bind]; try reflexivity.
  apply IH.
Qed.

Lemma mxname_loop_skip sgn pkt hdr recurse depth terminus offsetlen
      fuel c name len buf outname outname_len p0 b2 :
  load pkt c = Returns p0 ->
  char_is_label (char_val sgn p0) = true ->
  load pkt (c + 2) = Returns b2 ->
  char_is_label (char_val sgn b2) = true ->
  2 < len -> outname < terminus ->
  mxname_loop sgn pkt hdr recurse depth terminus offsetlen (S fuel) false c name len buf
              outname outname_len
  = name_loop sgn pkt hdr recurse depth terminus offsetlen (S fuel) (c + 2) name (len - 2)
              buf outname outname_len.
Proof.
  intros Hp0 Hl0 Hb2 Hl2 Hlen Hout.
  cbn [mxname_loop name_loop].
  rewrite !cond_true by (first [apply Z.gtb_lt | apply Z.ltb_lt]; lia).
  rewrite Hp0. cbv beta iota delta [bind]. rewrite Hl0.
  rewrite Hb2. cbv beta iota delta [bind]. rewrite Hl2.
  destruct ((char_val sgn b2 <? 64) && (len - 2 >? char_val sgn b2)); [|reflexivity].
  destruct (char_val sgn b2 =? 0); [reflexivity|].
  destruct (store buf outname 46) as [buf1| |]; cbv beta iota delta [bind]; try reflexivity.
  destruct (copy_label pkt (c + 2) (Z.to_nat (to_uchar (char_val sgn b2 + 1) - 1)) 1 buf1
                       (outname + 1)) as [[buf2 outname2]| |];
    cbv beta iota delta [bind]; try reflexivity.
  apply mxname_loop_processed.
Qed.

Lemma wire_head labels :
  Forall label_ok labels ->
  exists b2 rest, wire labels = b2 :: rest /\ 0 <= b2 < 64.
Proof.
  intros Hok. destruct labels as [|l t]; simpl.
  - exists 0, []. split; [reflexivity|lia].
  - apply Forall_cons_iff in Hok as [Hl _]. unfold label_ok in Hl.
    eexists _, _. split; [reflexivity|lia].
Qed.

Lemma label_tag_small sgn b : 0 <= b < 64 -> char_is_label (char_val sgn b) = true.
Proof.
  intros Hb. rewrite char_val_small by lia. unfold char_is_label.
  rewrite land_below_64 by lia. reflexivity.
Qed.

Lemma header_parse_mxname_wire sgn before p0 p1 labels rest hdr len buf outname outname_len depth :
  0 <= p0 < 64 ->
  Forall label_ok labels ->
  zlength (dotted labels) < len - 2 ->
  0 <= outname -> 2 <= outname_len ->
  zlength (dotted labels) < outname_len ->
  outname + outname_len <= zlength buf ->
  dns_header_parse_mxname sgn (before ++ [p0; p1] ++ wire labels ++ rest) hdr
    (zlength before) len buf outname outname_len depth
  = Returns (mk_name_result dns_ok (zlength before + 2 + zlength (wire labels))
               (len - 2 - zlength (dotted labels))
               (decoded_buffer buf outname labels)
               (outname + zlength (dotted labels))).
Proof.
  intros Hp0 Hok Hlen Hout Hroom2 Hroom Hbuf.
  pose proof (zlength_nonneg (dotted labels)) as Hd.
  pose proof (length_le_dotted labels Hok) as Hll.
  destruct (wire_head labels Hok) as (b2 & wrest & Hw & Hb2).
  unfold dns_header_parse_mxname, call_budget. cbn [parse_mxname_rec].
  replace ((len <=? 0) || (outname >? outname + outname_len) || (outname_len <? 2))
    with false.
  2:{ symmetry. apply orb_false_iff; split; [apply orb_false_iff; split|].
      - apply Z.leb_gt; lia.
      - rewrite Z.gtb_ltb. apply Z.ltb_ge; lia.
      - apply Z.ltb_ge; lia. }
  rewrite store_in_range by lia. cbv beta iota delta [bind].
  destruct (Z.to_nat len) as [|fuel] eqn:Efuel; [lia|].
  set (pkt := before ++ [p0; p1] ++ wire labels ++ rest).
  rewrite (mxname_loop_skip sgn pkt _ _ _ _ _ fuel _ _ _ _ _ _ p0 b2).
  - set (buf1 := update buf (Z.to_nat (outname + 1)) 0).
    assert (Hlen1 : zlength buf1 = zlength buf) by apply zlength_update.
    unfold decoded_buffer. fold buf1.
    set (pre := firstn (Z.to_nat outname) buf1).
    set (mid := firstn (S (length (dotted labels))) (skipn (Z.to_nat outname) buf1)).
    set (suf := skipn (S (length (dotted labels))) (skipn (Z.to_nat outname) buf1)).
    assert (Hpre : zlength pre = outname).
    { unfold pre, zlength in *. rewrite length_firstn. lia. }
    rewrite (name_loop_wire sgn pkt hdr _ depth _ _ rest labels (before ++ [p0; p1])
               (S fuel) _ _ _ _ pre mid suf).
    + first [reflexivity | f_equal; f_equal; zlen].
    + assumption.
    + unfold pkt. rewrite <- !app_assoc. reflexivity.
    + rewrite zlength_app. reflexivity.
    + unfold pre, mid, suf. now rewrite !firstn_skipn.
    + now rewrite Hpre.
    + unfold zlength in *. lia.
    + lia.
    + lia.
    + unfold mid. rewrite length_firstn, length_skipn. unfold zlength in *. lia.
  - unfold pkt. apply load_app.
  - apply label_tag_small. exact Hp0.
  - unfold pkt. rewrite Hw.
    replace (before ++ [p0; p1] ++ (b2 :: wrest) ++ rest)
      with ((before ++ [p0; p1]) ++ b2 :: wrest ++ rest)
      by (rewrite <- !app_assoc; reflexivity).
    replace (zlength before + 2) with (zlength (before ++ [p0; p1]))
      by (rewrite zlength_app; reflexivity).
    apply load_app.
  - apply label_tag_small. exact Hb2.
  - lia.
  - lia.
Qed.

(** ** The dispatcher, case by case *)

(** X9.  An A record of class IN: fewer than four bytes remaining give
    [dns_err_malformed], an rdlength other than four gives
    [dns_err_bad_rdlength], both without output and with the cursor
    unchanged; otherwise the four address bytes are consumed and the
    dotted quad is appended under the key [a]. *)
Theorem a_record_dispatch :
  forall char_signed inet_ntop6 pkt rh rr r len buf rdlength,
    load16 pkt (rr + 2) = Returns class_IN ->
    load16 pkt rr = Returns type_A ->
    load16 pkt (rr + 8) = Returns rdlength ->
    (len < 4 ->
     dns_rdata_print char_signed inet_ntop6 pkt rh rr r len buf
     = Returns (mk_rdata_result dns_err_malformed r len buf))
    /\ (4 <= len -> rdlength <> 4 ->
        dns_rdata_print char_signed inet_ntop6 pkt rh rr r len buf
        = Returns (mk_rdata_result dns_err_bad_rdlength r len buf))
    /\ (4 <= len -> rdlength = 4 ->
        forall a b c d,
          load_bytes pkt r 4 = Returns [a; b; c; d] ->
          dns_rdata_print char_signed inet_ntop6 pkt rh rr r len buf
          = Returns (mk_rdata_result dns_ok (r + 4) (len - 4)
                       (buf ++ [frag_name "a" (inet_ntop4 a b c d)]))).
Proof.
  intros sgn ntop pkt rh rr r len buf rdl Hc Ht Hr.
  unfold dns_rdata_print. rewrite Hc, Ht, Hr. cbv beta iota delta [bind].
  change (class_IN =? class_IN) with true. change (type_A =? type_A) with true.
  cbv iota. unfold dns_addr_parse, sizeof_in_addr.
  split; [|split].
  - intros Hlen. replace (len <? 4) with true by (symmetry; apply Z.ltb_lt; lia).
    reflexivity.
  - intros Hlen Hrdl. replace (len <? 4) with false by (symmetry; apply Z.ltb_ge; lia).
    replace (rdl =? 4) with false by (symmetry; apply Z.eqb_neq; lia).
    reflexivity.
  - intros Hlen Hrdl a b c d Hbytes.
    replace (len <? 4) with false by (symmetry; apply Z.ltb_ge; lia).
    replace (rdl =? 4) with true by (symmetry; apply Z.eqb_eq; lia).
    cbv iota beta delta [negb]. rewrite Hbytes. reflexivity.
Qed.

Lemma a_record_dispatch_witness :
  dns_rdata_print true ip6_text one_of_two_response 0 23 33 4 []
  = Returns (mk_rdata_result dns_ok (33 + 4) (4 - 4)
               ([] ++ [frag_name "a" (inet_ntop4 10 0 0 1)]))
  /\ dns_rdata_print true ip6_text one_of_two_response 0 23 33 3 []
     = Returns (mk_rdata_result dns_err_malformed 33 3 []).
Proof.
  destruct (a_record_dispatch true ip6_text one_of_two_response 0 23 33 4 [] 4)
    as (_ & _ & Hok); [reflexivity | reflexivity | reflexivity |].
  destruct (a_record_dispatch true ip6_text one_of_two_response 0 23 33 3 [] 4)
    as (Hshort & _ & _); [reflexivity | reflexivity | reflexivity |].
  split.
  - apply Hok; [lia | reflexivity | reflexivity].
  - apply Hshort; lia.
Defined.

(** X10.  An AAAA record of class IN: the same with sixteen bytes and the
    key [aaaa]. *)
Theorem aaaa_record_dispatch :
  forall char_signed inet_ntop6 pkt rh rr r len buf rdlength,
    load16 pkt (rr + 2) = Returns class_IN ->
    load16 pkt rr = Returns type_AAAA ->
    load16 pkt (rr + 8) = Returns rdlength ->
    (len < 16 ->
     dns_rdata_print char_signed inet_ntop6 pkt rh rr r len buf
     = Returns (mk_rdata_result dns_err_malformed r len buf))
    /\ (16 <= len -> rdlength <> 16 ->
        dns_rdata_print char_signed inet_ntop6 pkt rh rr r len buf
        = Returns (mk_rdata_result dns_err_bad_rdlength r len buf))
    /\ (16 <= len -> rdlength = 16 ->
        forall address,
          load_bytes pkt r 16 = Returns address ->
          dns_rdata_print char_signed inet_ntop6 pkt rh rr r len buf
          = Returns (mk_rdata_result dns_ok (r + 16) (len - 16)
                       (buf ++ [frag_name "aaaa" (inet_ntop6 address)]))).
Proof.
  intros sgn ntop pkt rh rr r len buf rdl Hc Ht Hr.
  unfold dns_rdata_print. rewrite Hc, Ht, Hr. cbv beta iota delta [bind].
  change (class_IN =? class_IN) with true. change (type_AAAA =? type_A) with false.
  change (type_AAAA =? type_AAAA) with true.
  cbv iota. unfold dns_ipv6_addr_parse, sizeof_in6_addr.
  split; [|split].
  - intros Hlen. replace (len <? 16) with true by (symmetry; apply Z.ltb_lt; lia).
    reflexivity.
  - intros Hlen Hrdl. replace (len <? 16) with false by (symmetry; apply Z.ltb_ge; lia).
    replace (rdl =? 16) with false by (symmetry; apply Z.eqb_neq; lia).
    reflexivity.
  - intros Hlen Hrdl address Hbytes.
    replace (len <? 16) with false by (symmetry; apply Z.ltb_ge; lia).
    replace (rdl =? 16) with true by (symmetry; apply Z.eqb_eq; lia).
    cbv iota beta delta [negb]. rewrite Hbytes. reflexivity.
Qed.

Lemma aaaa_record_dispatch_witness :
  dns_rdata_print true ip6_text aaaa_response 0 23 33 16 []
  = Returns (mk_rdata_result dns_ok (33 + 16) (16 - 16)
               ([] ++ [frag_name "aaaa"
                         (ip6_text [32; 1; 13; 184; 0; 0; 0; 0; 0; 0; 0; 0; 0; 0; 0; 1])])).
Proof.
  destruct (aaaa_record_dispatch true ip6_text aaaa_response 0 23 33 16 [] 16)
    as (_ & _ & Hok); [reflexivity | reflexivity | reflexivity |].
  apply Hok; [lia | reflexivity | reflexivity].
Defined.

(** X11.  A record of another class, or of class IN and a type the
    dispatcher does not know: when rdlength bytes remain they are skipped
    and the type, the class and the rdlength are appended; when fewer
    remain the result is [dns_err_malformed], nothing is appended and the
    cursor is unchanged. *)
Theorem unknown_record_is_skipped :
  forall char_signed inet_ntop6 pkt rh rr r len buf rclass type rdlength,
    load16 pkt (rr + 2) = Returns rclass ->
    load16 pkt rr = Returns type ->
    load16 pkt (rr + 8) = Returns rdlength ->
    rclass <> class_IN \/ known_type type = false ->
    0 <= len < 4294967296 ->
    (len < rdlength ->
     dns_rdata_print char_signed inet_ntop6 pkt rh rr r len buf
     = Returns (mk_rdata_result dns_err_malformed r len buf))
    /\ (rdlength <= len ->
        dns_rdata_print char_signed inet_ntop6 pkt rh rr r len buf
        = Returns (mk_rdata_result dns_ok (r + rdlength) (len - rdlength)
                     (buf ++ [frag_generic type rclass rdlength]))).
Proof.
  intros sgn ntop pkt rh rr r len buf rclass type rdl Hc Ht Hr Hunk Hlen.
  assert (Hadv : (len < rdl -> data_advance r len rdl = (dns_err_malformed, r, len))
                 /\ (rdl <= len -> data_advance r len rdl = (dns_ok, r + rdl, len - rdl))).
  { unfold data_advance, to_uint. rewrite Z.mod_small by lia. split; intros H.
    - replace (len <? rdl) with true by (symmetry; apply Z.ltb_lt; lia). reflexivity.
    - replace (len <? rdl) with false by (symmetry; apply Z.ltb_ge; lia). reflexivity. }
  destruct Hadv as [Hfail Hok].
  unfold dns_rdata_print. rewrite Hc, Ht. cbv beta iota delta [bind].
  destruct (rclass =? class_IN) eqn:Ec.
  - destruct Hunk as [Hne|Hk]; [apply Z.eqb_eq in Ec; contradiction|].
    unfold known_type in Hk.
    apply orb_false_iff in Hk as [Hk H4]. apply orb_false_iff in Hk as [Hk H3].
    apply orb_false_iff in Hk as [H1 H2].
    rewrite H1, H2, H3, H4, Hr. cbv beta iota delta [bind].
    split; intros H; [rewrite Hfail by exact H | rewrite Hok by exact H]; reflexivity.
  - rewrite Hr. cbv beta iota delta [bind].
    split; intros H; [rewrite Hfail by exact H | rewrite Hok by exact H]; reflexivity.
Qed.

Lemma unknown_record_is_skipped_witness :
  dns_rdata_print true ip6_text opt_response 0 22 32 3 []
  = Returns (mk_rdata_result dns_ok (32 + 3) (3 - 3)
               ([] ++ [frag_generic 41 4096 3])).
Proof.
  destruct (unknown_record_is_skipped true ip6_text opt_response 0 22 32 3 [] 4096 41 3)
    as (_ & Hok);
    [reflexivity | reflexivity | reflexivity | left; discriminate | lia |].
  apply Hok. lia.
Defined.

Lemma fresh_name_length : zlength fresh_name = 256.
Proof. reflexivity. Qed.

Lemma name_type_not_address type :
  is_name_type type = true -> (type =? type_A) = false /\ (type =? type_AAAA) = false.
Proof.
  unfold is_name_type, type_SOA, type_PTR, type_CNAME, type_NS, type_MX, type_A, type_AAAA.
  intros H. repeat (apply orb_true_iff in H as [H|H]); apply Z.eqb_eq in H; subst;
    split; reflexivity.
Qed.

Lemma zlength_wire labels : zlength (wire labels) = zlength (dotted labels) + 1.
Proof.
  induction labels as [|l t IH]; [reflexivity|]. cbn [wire dotted]. zlen.
Qed.

(** X12.  An SOA, PTR, CNAME or NS record of class IN whose rdata starts
    with an uncompressed name: the name is appended under the key of the
    type and the cursor is left at the end of the remaining length,
    whatever follows the name in the rdata; the length left is 1. *)
Theorem name_record_dispatch :
  forall char_signed inet_ntop6 before labels rest rh rr len buf type,
    let pkt := before ++ wire labels ++ rest in
    load16 pkt (rr + 2) = Returns class_IN ->
    load16 pkt rr = Returns type ->
    is_name_type type = true -> type <> type_MX ->
    Forall label_ok labels ->
    zlength (dotted labels) < 255 ->
    zlength (wire labels) <= len < 4294967296 ->
    dns_rdata_print char_signed inet_ntop6 pkt rh rr (zlength before) len buf
    = Returns (mk_rdata_result dns_ok (zlength before + len) 1
                 (buf ++ [frag_name (tname type) (text_of (tl (dotted labels)))])).
Proof.
  intros sgn ntop before labels rest rh rr len buf type pkt Hc Ht Hnt Hmx Hok Hroom Hlen.
  pose proof (zlength_wire labels) as Hw.
  pose proof (zlength_nonneg (dotted labels)) as Hd.
  destruct (name_type_not_address type Hnt) as [HA HAAAA].
  unfold dns_rdata_print. rewrite Hc, Ht. cbv beta iota delta [bind].
  change (class_IN =? class_IN) with true. cbv iota.
  rewrite HA, HAAAA, Hnt.
  replace (type =? type_MX) with false by (symmetry; apply Z.eqb_neq; exact Hmx).
  unfold pkt, dns_header_parse_name, call_budget.
  rewrite parse_name_rec_wire;
    try assumption; try (rewrite ?fresh_name_length; unfold DNS_OUTNAME_LEN; lia).
  cbv beta iota delta [bind]. cbn [nr_err nr_name nr_len nr_buf].
  change (negb (dns_err_eqb dns_ok dns_ok)) with false. cbv iota.
  destruct (decoded_buffer_text fresh_name 0 labels) as [_ Htext];
    [lia | rewrite fresh_name_length; lia |].
  change (0 + 1) with 1 in Htext. rewrite Htext.
  unfold emit.
  destruct (len - zlength (dotted labels) - 1 >? 0) eqn:E.
  - apply Z.gtb_lt in E. rewrite data_advance_rest by lia.
    f_equal. f_equal. lia.
  - rewrite Z.gtb_ltb in E. apply Z.ltb_ge in E. f_equal. f_equal; lia.
Qed.

Lemma name_record_dispatch_witness :
  dns_rdata_print true ip6_text
    ((response_header 1 ++ question_com 5 ++ rr_header 5 11)
       ++ wire [[119; 119; 119]; [99; 111; 109]] ++ [7; 7])
    0 23 (zlength (response_header 1 ++ question_com 5 ++ rr_header 5 11)) 11 []
  = Returns (mk_rdata_result dns_ok
               (zlength (response_header 1 ++ question_com 5 ++ rr_header 5 11) + 11) 1
               ([] ++ [frag_name (tname 5)
                         (text_of (tl (dotted [[119; 119; 119]; [99; 111; 109]])))])).
Proof.
  apply (name_record_dispatch true ip6_text
           (response_header 1 ++ question_com 5 ++ rr_header 5 11)
           [[119; 119; 119]; [99; 111; 109]] [7; 7] 0 23 11 [] 5).
  - reflexivity.
  - reflexivity.
  - reflexivity.
  - discriminate.
  - repeat constructor; unfold label_ok; simpl; lia.
  - vm_compute; reflexivity.
  - split; [vm_compute; discriminate | lia].
Defined.

(** X13.  An MX record of class IN whose rdata is a preference with first
    byte below 64 and an uncompressed name: the name is appended under
    the key [mx] and the cursor is left at the end of the remaining
    length. *)
Theorem mx_record_dispatch :
  forall char_signed inet_ntop6 before p0 p1 labels rest rh rr len buf,
    let pkt := before ++ [p0; p1] ++ wire labels ++ rest in
    load16 pkt (rr + 2) = Returns class_IN ->
    load16 pkt rr = Returns type_MX ->
    0 <= p0 < 64 ->
    Forall label_ok labels ->
    zlength (dotted labels) < 255 ->
    2 + zlength (wire labels) <= len < 4294967296 ->
    dns_rdata_print char_signed inet_ntop6 pkt rh rr (zlength before) len buf
    = Returns (mk_rdata_result dns_ok (zlength before + len) 1
                 (buf ++ [frag_name "mx" (text_of (tl (dotted labels)))])).
Proof.
  intros sgn ntop before p0 p1 labels rest rh rr len buf pkt Hc Ht Hp0 Hok Hroom Hlen.
  pose proof (zlength_wire labels) as Hw.
  pose proof (zlength_nonneg (dotted labels)) as Hd.
  unfold dns_rdata_print. rewrite Hc, Ht. cbv beta iota delta [bind].
  change (class_IN =? class_IN) with true. cbv iota.
  change (type_MX =? type_A) with false. change (type_MX =? type_AAAA) with false.
  change (is_name_type type_MX) with true. change (type_MX =? type_MX) with true.
  cbv iota. unfold pkt.
  rewrite header_parse_mxname_wire;
    try assumption; try (rewrite ?fresh_name_length; unfold DNS_OUTNAME_LEN; lia).
  cbv beta iota delta [bind]. cbn [nr_err nr_name nr_len nr_buf].
  change (negb (dns_err_eqb dns_ok dns_ok)) with false. cbv iota.
  destruct (decoded_buffer_text fresh_name 0 labels) as [_ Htext];
    [lia | rewrite fresh_name_length; lia |].
  change (0 + 1) with 1 in Htext. rewrite Htext.
  unfold emit. change (tname type_MX) with "mx"%string.
  destruct (len - 2 - zlength (dotted labels) - 1 >? 0) eqn:E.
  - apply Z.gtb_lt in E. rewrite data_advance_rest by lia.
    f_equal. f_equal. lia.
  - rewrite Z.gtb_ltb in E. apply Z.ltb_ge in E. f_equal. f_equal; lia.
Qed.

Lemma mx_record_dispatch_witness :
  dns_rdata_print true ip6_text
    ((response_header 1 ++ question_com 15 ++ rr_header 15 10)
       ++ [0; 10] ++ wire [[109; 120]; [99; 111; 109]] ++ [])
    0 23 (zlength (response_header 1 ++ question_com 15 ++ rr_header 15 10)) 10 []
  = Returns (mk_rdata_result dns_ok
               (zlength (response_header 1 ++ question_com 15 ++ rr_header 15 10) + 10) 1
               ([] ++ [frag_name "mx"
                         (text_of (tl (dotted [[109; 120]; [99; 111; 109]])))])).
Proof.
  apply (mx_record_dispatch true ip6_text
           (response_header 1 ++ question_com 15 ++ rr_header 15 10) 0 10
           [[109; 120]; [99; 111; 109]] [] 0 23 10 []).
  - reflexivity.
  - reflexivity.
  - lia.
  - repeat constructor; unfold label_ok; simpl; lia.
  - vm_compute; reflexivity.
  - split; [vm_compute; discriminate | lia].
Defined.

(** X14.  When [dns_rdata_print] returns [dns_ok] it has appended exactly
    one fragment to the text builder. *)
Theorem rdata_success_appends_one :
  forall char_signed inet_ntop6 pkt rh rr r len buf res,
    dns_rdata_print char_signed inet_ntop6 pkt rh rr r len buf = Returns res ->
    rd_err res = dns_ok ->
    exists fragment, rd_buf res = buf ++ [fragment].
Proof.
  intros sgn ntop pkt rh rr r len buf res H Herr.
  unfold dns_rdata_print in H.
  apply bind_returns in H as (rclass & _ & H).
  apply bind_returns in H as (type & _ & H).
  assert (Hgen : forall rdlength,
             match data_advance r len rdlength with
             | (dns_ok, r', len') =>
                 Returns (mk_rdata_result dns_ok r' len'
                            (emit buf (frag_generic type rclass rdlength)))
             | (err, r', len') => Returns (mk_rdata_result err r' len' buf)
             end = Returns res -> exists fragment, rd_buf res = buf ++ [fragment]).
  { intros rdlength. unfold data_advance.
    destruct (to_uint len <? rdlength); intros H'; inv H'; simpl in *;
      [discriminate | eexists; reflexivity]. }
  destruct (rclass =? class_IN).
  2:{ apply bind_returns in H as (rdlength & _ & H). eauto. }
  destruct (type =? type_A).
  { apply bind_returns in H as (rdlength & _ & H).
    unfold dns_addr_parse in H.
    destruct (len <? sizeof_in_addr); [inv H; discriminate|].
    destruct (negb (rdlength =? sizeof_in_addr)); [inv H; discriminate|].
    apply bind_returns in H as (a & _ & H). inv H. eexists; reflexivity. }
  destruct (type =? type_AAAA).
  { apply bind_returns in H as (rdlength & _ & H).
    unfold dns_ipv6_addr_parse in H.
    destruct (len <? sizeof_in6_addr); [inv H; discriminate|].
    destruct (negb (rdlength =? sizeof_in6_addr)); [inv H; discriminate|].
    apply bind_returns in H as (a & _ & H). inv H. eexists; reflexivity. }
  destruct (is_name_type type).
  { apply bind_returns in H as (nr & Hnr & H).
    destruct (negb (dns_err_eqb (nr_err nr) dns_ok)) eqn:E.
    - inv H. simpl in Herr. rewrite Herr in E. discriminate.
    - destruct (nr_len nr - 1 >? 0).
      + unfold data_advance in H.
        destruct (to_uint (nr_len nr) <? to_uint (nr_len nr - 1)); inv H;
          eexists; reflexivity.
      + inv H. eexists; reflexivity. }
  destruct (type =? type_TXT).
  { inv H. eexists; reflexivity. }
  apply bind_returns in H as (rdlength & _ & H). eauto.
Qed.

Lemma rdata_success_appends_one_witness :
  exists fragment,
    rd_buf (mk_rdata_result dns_ok 33 5 ([frag_txt] ++ [frag_txt]))
    = [frag_txt] ++ [fragment].
Proof.
  apply (rdata_success_appends_one true ip6_text txt_response 0 23 33 5 [frag_txt]);
    [vm_compute; reflexivity | reflexivity].
Defined.

(** ** The driver *)

Lemma load_prefix pre rest i :
  (i < length pre)%nat -> load (pre ++ rest) (Z.of_nat i) = Returns (nth i pre 0).
Proof.
  intros Hi. unfold load, in_range. rewrite length_app.
  rewrite cond_true by (first [apply Z.leb_le | apply Z.ltb_lt]; lia).
  rewrite Nat2Z.id, app_nth1 by exact Hi. reflexivity.
Qed.

Lemma load16_prefix pre rest i :
  (S i < length pre)%nat ->
  load16 (pre ++ rest) (Z.of_nat i) = Returns (nth i pre 0 * 256 + nth (S i) pre 0).
Proof.
  intros Hi. unfold load16.
  rewrite load_prefix by lia. cbv beta iota delta [bind].
  replace (Z.of_nat i + 1) with (Z.of_nat (S i)) by lia.
  rewrite load_prefix by lia. reflexivity.
Qed.

(** X15.  A message with one question, given as an uncompressed name, and
    no records: the driver emits the opening brace, the question name
    under [qn] or [rn] by the top bit of the flags, the low four bits of
    the flags as [rc] with the opening of the [rr] array, and the closing
    of the array and the document; the pointer ends at the end of the
    message and the remaining length at 1. *)
Theorem question_only_message :
  forall char_signed inet_ntop6 i0 i1 f0 f1 labels t0 t1 c0 c1 buf,
    let pkt := [i0; i1; f0; f1; 0; 1; 0; 0; 0; 0; 0; 0] ++ wire labels ++ [t0; t1; c0; c1] in
    let flags := f0 * 256 + f1 in
    let qr := if to_uchar (Z.shiftr flags 15) =? 0 then "q"%string else "r"%string in
    Forall label_ok labels ->
    zlength (dotted labels) < 255 ->
    question_summary (write_dns_server_data char_signed inet_ntop6 pkt buf)
    = Returns (dns_ok, zlength pkt, 1,
               buf ++ ["{"%string;
                       frag_question qr (text_of (tl (dotted labels)));
                       frag_rc (Z.land flags 15);
                       "]}"%string]).
Proof.
  intros sgn ntop i0 i1 f0 f1 labels t0 t1 c0 c1 buf pkt flags qr Hok Hroom.
  pose proof (zlength_wire labels) as Hw.
  pose proof (zlength_nonneg (dotted labels)) as Hd.
  set (hdr12 := [i0; i1; f0; f1; 0; 1; 0; 0; 0; 0; 0; 0]) in *.
  assert (Hlen : zlength pkt = 12 + zlength (wire labels) + 4).
  { unfold pkt. rewrite !zlength_app.
    change (zlength hdr12) with 12. change (zlength [t0; t1; c0; c1]) with 4. lia. }
  assert (H2 : load16 pkt 2 = Returns flags) by (apply (load16_prefix hdr12 _ 2); simpl; lia).
  assert (H4 : load16 pkt 4 = Returns 1) by (apply (load16_prefix hdr12 _ 4); simpl; lia).
  assert (H6 : load16 pkt 6 = Returns 0) by (apply (load16_prefix hdr12 _ 6); simpl; lia).
  assert (H8 : load16 pkt 8 = Returns 0) by (apply (load16_prefix hdr12 _ 8); simpl; lia).
  assert (H10 : load16 pkt 10 = Returns 0) by (apply (load16_prefix hdr12 _ 10); simpl; lia).
  assert (Hname :
            dns_header_parse_name sgn pkt 0 12 (zlength pkt - 12) fresh_name 0
                                  (DNS_OUTNAME_LEN - 1) 0
            = Returns (mk_name_result dns_ok (12 + zlength (wire labels))
                         (zlength pkt - 12 - zlength (dotted labels))
                         (decoded_buffer fresh_name 0 labels)
                         (0 + zlength (dotted labels)))).
  { unfold dns_header_parse_name, call_budget, pkt.
    change 12 with (zlength hdr12) at 1 3.
    apply parse_name_rec_wire;
      try assumption; try (rewrite ?fresh_name_length; unfold DNS_OUTNAME_LEN; lia).
    fold pkt. lia. }
  destruct (decoded_buffer_text fresh_name 0 labels) as [_ Htext];
    [lia | rewrite fresh_name_length; lia |].
  change (0 + 1) with 1 in Htext.
  unfold question_summary, write_dns_server_data, dns_print_packet.
  fold (zlength pkt).
  replace (zlength pkt <? sizeof_dns_hdr) with false
    by (symmetry; apply Z.ltb_ge; unfold sizeof_dns_hdr; lia).
  change (0 + 2) with 2. change (0 + 4) with 4. change (0 + 6) with 6.
  change (0 + 8) with 8. change (0 + 10) with 10. change (0 + 12) with 12.
  rewrite H2. cbv beta iota delta [bind]. rewrite H4. cbv beta iota delta [bind].
  change (1 >? 1) with false. cbv iota. change (Z.to_nat 1) with 1%nat.
  cbn [records]. unfold question_record at 1. cbn [ds_r ds_len ds_name ds_buf ds_rdlength ds_comma ds_rr].
  rewrite Hname. cbv beta iota delta [bind]. cbn [nr_err nr_name nr_len nr_buf].
  change (failed dns_ok) with false. cbv iota.
  unfold dns_question_parse, sizeof_dns_question.
  replace (zlength pkt - 12 - zlength (dotted labels) <? 4) with false
    by (symmetry; apply Z.ltb_ge; lia).
  cbv beta iota delta [bind]. cbn [ds_err]. change (failed dns_ok) with false. cbv iota.
  repeat first
    [ rewrite H6 | rewrite H8 | rewrite H10
    | progress change (Z.to_nat 0) with 0%nat
    | progress cbn [records]
    | progress cbv beta iota delta [bind]
    | progress unfold say, between_sections
    | progress cbn [ds_err ds_r ds_len ds_name ds_buf ds_rdlength ds_comma ds_rr]
    | progress change (failed dns_ok) with false
    | progress change (0 >? 1) with false ].
  rewrite Htext. unfold emit. rewrite <- !app_assoc. cbn [app].
  replace (12 + zlength (wire labels) + 4) with (zlength pkt) by lia.
  replace (zlength pkt - 12 - zlength (dotted labels) - 4) with 1 by lia.
  reflexivity.
Qed.

Lemma question_only_message_witness :
  question_summary
    (write_dns_server_data true ip6_text
       ([0; 1; 1; 0; 0; 1; 0; 0; 0; 0; 0; 0] ++ wire [[99; 111; 109]] ++ [0; 1; 0; 1]) [])
  = Returns (dns_ok,
             zlength ([0; 1; 1; 0; 0; 1; 0; 0; 0; 0; 0; 0] ++ wire [[99; 111; 109]]
                        ++ [0; 1; 0; 1]),
             1,
             [] ++ ["{"%string;
                    frag_question
                      (if to_uchar (Z.shiftr (1 * 256 + 0) 15) =? 0
                       then "q"%string else "r"%string)
                      (text_of (tl (dotted [[99; 111; 109]])));
                    frag_rc (Z.land (1 * 256 + 0) 15);
                    "]}"%string]).
Proof.
  apply (question_only_message true ip6_text 0 1 1 0 [[99; 111; 109]] 0 1 0 1 []).
  - repeat constructor; unfold label_ok; simpl; lia.
  - vm_compute; reflexivity.
Defined.



(** ** The record header, case by case *)

(** X8.  [dns_rr_parse], case by case: fewer than ten bytes give
    [dns_err_malformed]; a declared rdlength above the length that still
    counts the ten header bytes gives [dns_err_rdata_too_long]; otherwise
    the cursor moves over the ten bytes and the declared rdlength is
    returned.  The cursor is unchanged on failure. *)
Theorem rr_header_parse_cases :
  forall pkt rr data len rdlength,
    (len < 10 ->
     dns_rr_parse pkt rr data len rdlength
     = Returns (dns_err_malformed, rr, data, len, rdlength))
    /\ (forall declared,
          10 <= len ->
          load16 pkt (data + 8) = Returns declared ->
          (len < declared ->
           dns_rr_parse pkt rr data len rdlength
           = Returns (dns_err_rdata_too_long, data, data, len, rdlength))
          /\ (declared <= len ->
              dns_rr_parse pkt rr data len rdlength
              = Returns (dns_ok, data, data + 10, len - 10, declared))).
Proof.
  intros pkt rr data len rdlength. unfold dns_rr_parse, sizeof_dns_rr. split.
  - intros H. replace (len <? 10) with true by (symmetry; apply Z.ltb_lt; lia).
    reflexivity.
  - intros declared Hlen Hd.
    replace (len <? 10) with false by (symmetry; apply Z.ltb_ge; lia).
    rewrite Hd. cbv beta iota delta [bind]. split; intros H.
    + replace (len <? declared) with true by (symmetry; apply Z.ltb_lt; lia). reflexivity.
    + replace (len <? declared) with false by (symmetry; apply Z.ltb_ge; lia). reflexivity.
Qed.

Lemma rr_header_parse_cases_witness :
  dns_rr_parse one_of_two_response 0 23 9 0
  = Returns (dns_err_malformed, 0, 23, 9, 0)
  /\ dns_rr_parse one_of_two_response 0 23 14 0
     = Returns (dns_ok, 23, 23 + 10, 14 - 10, 4)
  /\ dns_rr_parse soa_response 0 23 20 0
     = Returns (dns_err_rdata_too_long, 23, 23, 20, 0).
Proof.
  split; [|split].
  - destruct (rr_header_parse_cases one_of_two_response 0 23 9 0) as (H & _).
    apply H. lia.
  - destruct (rr_header_parse_cases one_of_two_response 0 23 14 0) as (_ & H).
    destruct (H 4) as (_ & Hok); [lia | reflexivity |]. apply Hok. lia.
  - destruct (rr_header_parse_cases soa_response 0 23 20 0) as (_ & H).
    destruct (H 24) as (Hlong & _); [lia | reflexivity |]. apply Hlong. lia.
Defined.

(** ** The cursor primitives *)

(** X17.  [data_advance], [uint16_parse] and [dns_question_parse] on a
    remaining length from 0 up to 2^32: the length stays non-negative,
    position plus length is unchanged, and the call succeeds, moving the
    position by the bytes it needs, exactly when that many remain. *)
Theorem cursor_primitives_contract :
  forall data len,
    0 <= len < 4294967296 ->
    (forall size, 0 <= size -> keeps_cursor data len size (data_advance data len size))
    /\ keeps_cursor data len 2
         (let '(e, _, data', len') := uint16_parse data len in (e, data', len'))
    /\ keeps_cursor data len 4 (dns_question_parse data len).
Proof.
  intros data len Hlen. split; [|split].
  - intros size Hsize. unfold keeps_cursor, data_advance, to_uint.
    rewrite Z.mod_small by lia.
    destruct (len <? size) eqn:E; [apply Z.ltb_lt in E|apply Z.ltb_ge in E];
      repeat split; try lia; intros; try lia; reflexivity.
  - unfold keeps_cursor, uint16_parse, sizeof_uint16.
    destruct (len <? 2) eqn:E; [apply Z.ltb_lt in E|apply Z.ltb_ge in E];
      repeat split; try lia; intros; try lia; reflexivity.
  - unfold keeps_cursor, dns_question_parse, sizeof_dns_question.
    destruct (len <? 4) eqn:E; [apply Z.ltb_lt in E|apply Z.ltb_ge in E];
      repeat split; try lia; intros; try lia; reflexivity.
Qed.

Lemma cursor_primitives_contract_witness :
  (forall size, 0 <= size -> keeps_cursor 12 5 size (data_advance 12 5 size))
  /\ keeps_cursor 12 5 2
       (let '(e, _, data', len') := uint16_parse 12 5 in (e, data', len'))
  /\ keeps_cursor 12 5 4 (dns_question_parse 12 5).
Proof. apply (cursor_primitives_contract 12 5). lia. Defined.

(** ** The text builder only grows *)










(** X7.  [dns_header_parse_mxname] on a preference whose first byte is
    below 64 followed by an uncompressed name: the two preference bytes
    are skipped and the name is decoded as by the plain decoder, the
    caller's pointer ending behind the terminator. *)
Theorem mx_name_behind_preference :
  forall char_signed before p0 p1 labels rest hdr len buf outname outname_len
         recursion_depth,
    0 <= p0 < 64 ->
    Forall label_ok labels ->
    zlength (dotted labels) < len - 2 ->
    0 <= outname -> 2 <= outname_len ->
    zlength (dotted labels) < outname_len ->
    outname + outname_len <= zlength buf ->
    dns_header_parse_mxname char_signed (before ++ [p0; p1] ++ wire labels ++ rest) hdr
      (zlength before) len buf outname outname_len recursion_depth
    = Returns (mk_name_result dns_ok (zlength before + 2 + zlength (wire labels))
                 (len - 2 - zlength (dotted labels))
                 (decoded_buffer buf outname labels)
                 (outname + zlength (dotted labels))).
Proof. intros. apply header_parse_mxname_wire; assumption. Qed.

Lemma mx_name_behind_preference_witness :
  dns_header_parse_mxname true ([7] ++ [0; 10] ++ wire [[109; 120]; [99; 111; 109]] ++ [9])
    0 (zlength [7]) 10 fresh_name 0 255 0
  = Returns (mk_name_result dns_ok
               (zlength [7] + 2 + zlength (wire [[109; 120]; [99; 111; 109]]))
               (10 - 2 - zlength (dotted [[109; 120]; [99; 111; 109]]))
               (decoded_buffer fresh_name 0 [[109; 120]; [99; 111; 109]])
               (0 + zlength (dotted [[109; 120]; [99; 111; 109]]))).
Proof.
  apply (mx_name_behind_preference true [7] 0 10 [[109; 120]; [99; 111; 109]] [9]
           0 10 fresh_name 0 255 0).
  - lia.
  - repeat constructor; unfold label_ok; simpl; lia.
  - vm_compute; reflexivity.
  - lia.
  - lia.
  - vm_compute; reflexivity.
  - vm_compute; discriminate.
Defined.

(** ** A whole response

    The usual shape of a response: the owner name of the answer is
    compressed into a pointer to the question name. *)

Lemma load_suffix pre mid i :
  (i < length mid)%nat ->
  load (pre ++ mid) (zlength pre + Z.of_nat i) = Returns (nth i mid 0).
Proof.
  intros Hi. unfold load, in_range, zlength. rewrite length_app.
  rewrite cond_true by (first [apply Z.leb_le | apply Z.ltb_lt]; lia).
  replace (Z.to_nat (Z.of_nat (length pre) + Z.of_nat i)) with (length pre + i)%nat by lia.
  rewrite app_nth2_plus. reflexivity.
Qed.

(** X19.  A response with one question, given as an uncompressed name, and
    one answer: an IN A record of four bytes whose owner name is a pointer
    to the question name at offset 12.  The driver emits the question, the
    response code, the address in dotted-quad form under [a] and the
    time-to-live, and closes the array and the document; the pointer ends
    at the end of the message and the remaining length at 5. *)
Theorem single_a_answer_message :
  forall char_signed inet_ntop6 i0 i1 f0 f1 labels t0 t1 c0 c1 l0 l1 l2 l3 a b c d buf,
    let pkt := [i0; i1; f0; f1; 0; 1; 0; 1; 0; 0; 0; 0]
                 ++ (wire labels ++ [t0; t1; c0; c1])
                 ++ [192; 12; 0; 1; 0; 1; l0; l1; l2; l3; 0; 4; a; b; c; d] in
    let flags := f0 * 256 + f1 in
    let qr := if to_uchar (Z.shiftr flags 15) =? 0 then "q"%string else "r"%string in
    Forall label_ok labels ->
    zlength (dotted labels) < 255 ->
    question_summary (write_dns_server_data char_signed inet_ntop6 pkt buf)
    = Returns (dns_ok, zlength pkt, 5,
               buf ++ ["{"%string;
                       frag_question qr (text_of (tl (dotted labels)));
                       frag_rc (Z.land flags 15);
                       "{"%string;
                       frag_name "a" (inet_ntop4 a b c d);
                       frag_ttl ((l0 * 256 + l1) * 65536 + (l2 * 256 + l3));
                       "]}"%string]).
Proof.
  intros sgn ntop i0 i1 f0 f1 labels t0 t1 c0 c1 l0 l1 l2 l3 a b c d buf pkt flags qr
         Hok Hroom.
  pose proof (zlength_wire labels) as Hw.
  pose proof (zlength_nonneg (dotted labels)) as Hd.
  set (hdr12 := [i0; i1; f0; f1; 0; 1; 0; 1; 0; 0; 0; 0]) in *.
  set (answer := [192; 12; 0; 1; 0; 1; l0; l1; l2; l3; 0; 4; a; b; c; d]) in *.
  remember (12 + zlength (wire labels) + 4) as q eqn:Hqdef.
  assert (Hpre : zlength (hdr12 ++ wire labels ++ [t0; t1; c0; c1]) = q).
  { rewrite !zlength_app. change (zlength hdr12) with 12.
    change (zlength [t0; t1; c0; c1]) with 4. lia. }
  assert (Hpkt : pkt = (hdr12 ++ wire labels ++ [t0; t1; c0; c1]) ++ answer).
  { unfold pkt. rewrite <- !app_assoc. reflexivity. }
  assert (Hlen : zlength pkt = q + 16).
  { rewrite Hpkt, zlength_app, Hpre. reflexivity. }
  assert (Hans : forall i, (i < 16)%nat -> load pkt (q + Z.of_nat i) = Returns (nth i answer 0)).
  { intros i Hi. rewrite Hpkt, <- Hpre. apply load_suffix. exact Hi. }
  assert (H2 : load16 pkt 2 = Returns flags) by (apply (load16_prefix hdr12 _ 2); simpl; lia).
  assert (H4 : load16 pkt 4 = Returns 1) by (apply (load16_prefix hdr12 _ 4); simpl; lia).
  assert (H6 : load16 pkt 6 = Returns 1) by (apply (load16_prefix hdr12 _ 6); simpl; lia).
  assert (H8 : load16 pkt 8 = Returns 0) by (apply (load16_prefix hdr12 _ 8); simpl; lia).
  assert (H10 : load16 pkt 10 = Returns 0) by (apply (load16_prefix hdr12 _ 10); simpl; lia).
  assert (Hq16 : forall i, (S i < 16)%nat ->
                           load16 pkt (q + Z.of_nat i)
                           = Returns (nth i answer 0 * 256 + nth (S i) answer 0)).
  { intros i Hi. unfold load16. rewrite Hans by lia. cbv beta iota delta [bind].
    replace (q + Z.of_nat i + 1) with (q + Z.of_nat (S i)) by lia.
    rewrite Hans by lia. reflexivity. }
  assert (Hname :
            dns_header_parse_name sgn pkt 0 12 (q + 4) fresh_name 0
                                  (DNS_OUTNAME_LEN - 1) 0
            = Returns (mk_name_result dns_ok (12 + zlength (wire labels))
                         (q + 4 - zlength (dotted labels))
                         (decoded_buffer fresh_name 0 labels)
                         (0 + zlength (dotted labels)))).
  { pose proof (parse_name_rec_wire sgn (Z.to_nat (DNS_MAX_RECURSION_DEPTH - 0)) hdr12 labels
                  ([t0; t1; c0; c1] ++ answer) 0 (q + 4) fresh_name 0
                  (DNS_OUTNAME_LEN - 1) 0 Hok) as H.
    change (zlength hdr12) with 12 in H.
    unfold dns_header_parse_name, call_budget, pkt. rewrite <- app_assoc.
    apply H; rewrite ?fresh_name_length; unfold DNS_OUTNAME_LEN; lia. }
  assert (Hptr : pointer_at sgn pkt q = Some 12).
  { unfold pointer_at.
    replace q with (q + Z.of_nat 0) at 1 by lia. rewrite Hans by lia.
    replace (q + 1) with (q + Z.of_nat 1) by lia. rewrite Hans by lia.
    simpl nth. destruct (tag_of_byte sgn 192 ltac:(lia)) as [-> ->]. reflexivity. }
  assert (Hown :
            dns_header_parse_name sgn pkt 0 q 17 fresh_name 0 (DNS_OUTNAME_LEN - 1) 0
            = Returns (mk_name_result dns_ok (q + 2) 15
                         (decoded_buffer fresh_name 0 labels)
                         (0 + zlength (dotted labels)))).
  { rewrite (header_parse_name_jump sgn pkt q 17 fresh_name 0 _ 0 12 Hptr);
      try (rewrite ?fresh_name_length; unfold DNS_OUTNAME_LEN, DNS_MAX_RECURSION_DEPTH; lia).
    pose proof (parse_name_rec_wire sgn (Z.to_nat (DNS_MAX_RECURSION_DEPTH - (0 + 1))) hdr12
                  labels ([t0; t1; c0; c1] ++ answer) 0 (q + 17 - 12)
                  (update fresh_name (Z.to_nat (0 + 1)) 0) 0
                  (DNS_OUTNAME_LEN - 1) (0 + 1) Hok) as H.
    change (zlength hdr12) with 12 in H.
    unfold dns_header_parse_name, call_budget, pkt. rewrite <- app_assoc.
    rewrite H by (rewrite ?zlength_update, ?fresh_name_length; unfold DNS_OUTNAME_LEN; lia).
    cbv beta iota delta [bind]. unfold after_jump. cbn [nr_err nr_buf nr_outname].
    replace (update fresh_name (Z.to_nat (0 + 1)) 0) with fresh_name
      by (vm_compute; reflexivity).
    reflexivity. }
  destruct (decoded_buffer_text fresh_name 0 labels) as [_ Htext];
    [lia | rewrite fresh_name_length; lia |].
  change (0 + 1) with 1 in Htext.
  assert (Hrr : dns_rr_parse pkt 0 (q + 2) 15 0 = Returns (dns_ok, q + 2, q + 12, 5, 4)).
  { unfold dns_rr_parse, sizeof_dns_rr. change (15 <? 10) with false. cbv iota.
    replace (q + 2 + 8) with (q + Z.of_nat 10) by lia.
    rewrite Hq16 by lia. cbv beta iota delta [bind]. simpl nth.
    change (15 <? 0 * 256 + 4) with false. cbv iota.
    replace (q + 2 + 10) with (q + 12) by lia. reflexivity. }
  assert (Hbytes : load_bytes pkt (q + 12) 4 = Returns [a; b; c; d]).
  { cbn [load_bytes].
    replace (q + 12) with (q + Z.of_nat 12) by lia. rewrite Hans by lia.
    replace (q + Z.of_nat 12 + 1) with (q + Z.of_nat 13) by lia. rewrite Hans by lia.
    replace (q + Z.of_nat 13 + 1) with (q + Z.of_nat 14) by lia. rewrite Hans by lia.
    replace (q + Z.of_nat 14 + 1) with (q + Z.of_nat 15) by lia. rewrite Hans by lia.
    reflexivity. }
  assert (Hrd : forall out,
             dns_rdata_print sgn ntop pkt 0 (q + 2) (q + 12) 4 out
             = Returns (mk_rdata_result dns_ok (q + 12 + 4) (4 - 4)
                          (emit out (frag_name "a" (inet_ntop4 a b c d))))).
  { intros out. unfold dns_rdata_print.
    replace (q + 2 + 2) with (q + Z.of_nat 4) by lia. rewrite Hq16 by lia.
    cbv beta iota delta [bind]. simpl nth.
    replace (q + 2) with (q + Z.of_nat 2) by lia. rewrite Hq16 by lia.
    cbv beta iota delta [bind]. simpl nth.
    replace (q + Z.of_nat 2 + 8) with (q + Z.of_nat 10) by lia. rewrite Hq16 by lia.
    cbv beta iota delta [bind]. simpl nth.
    change (0 * 256 + 1 =? class_IN) with true. change (0 * 256 + 1 =? type_A) with true.
    cbv iota. unfold dns_addr_parse, sizeof_in_addr.
    change (4 <? 4) with false. change (0 * 256 + 4 =? 4) with true.
    cbv iota beta delta [negb]. rewrite Hbytes. reflexivity. }
  assert (Httl : load32 pkt (q + 2 + 4)
                 = Returns ((l0 * 256 + l1) * 65536 + (l2 * 256 + l3))).
  { unfold load32.
    replace (q + 2 + 4) with (q + Z.of_nat 6) by lia. rewrite Hq16 by lia.
    cbv beta iota delta [bind].
    replace (q + Z.of_nat 6 + 2) with (q + Z.of_nat 8) by lia. rewrite Hq16 by lia.
    reflexivity. }
  unfold question_summary, write_dns_server_data, dns_print_packet.
  fold (zlength pkt).
  replace (zlength pkt <? sizeof_dns_hdr) with false
    by (symmetry; apply Z.ltb_ge; unfold sizeof_dns_hdr; lia).
  change (0 + 2) with 2. change (0 + 4) with 4. change (0 + 6) with 6.
  change (0 + 8) with 8. change (0 + 10) with 10. change (0 + 12) with 12.
  rewrite H2. cbv beta iota delta [bind]. rewrite H4. cbv beta iota delta [bind].
  change (1 >? 1) with false. cbv iota. change (Z.to_nat 1) with 1%nat.
  cbn [records]. unfold question_record at 1. cbn [ds_r ds_len ds_name ds_buf ds_rdlength ds_comma ds_rr].
  replace (zlength pkt - 12) with (q + 4) by lia.
  rewrite Hname. cbv beta iota delta [bind]. cbn [nr_err nr_name nr_len nr_buf].
  change (failed dns_ok) with false. cbv iota.
  unfold dns_question_parse, sizeof_dns_question.
  replace (q + 4 - zlength (dotted labels) <? 4) with false
    by (symmetry; apply Z.ltb_ge; lia).
  cbv beta iota delta [bind]. cbn [ds_err]. change (failed dns_ok) with false. cbv iota.
  unfold say. cbn [ds_err ds_r ds_len ds_name ds_buf ds_rdlength ds_comma ds_rr].
  rewrite H6. cbv beta iota delta [bind]. change (Z.to_nat 1) with 1%nat.
  cbn [records]. unfold rr_record at 1.
  cbn [ds_err ds_r ds_len ds_name ds_buf ds_rdlength ds_comma ds_rr].
  replace (12 + zlength (wire labels) + 4) with q by lia.
  replace (q + 4 - zlength (dotted labels) - 4) with 17 by lia.
  rewrite Hown. cbv beta iota delta [bind]. cbn [nr_err nr_name nr_len nr_buf].
  change (failed dns_ok) with false. cbv iota.
  rewrite Hrr. cbv beta iota delta [bind]. change (failed dns_ok) with false. cbv iota.
  rewrite Hrd, Httl. cbv beta iota delta [bind]. cbn [rd_err rd_r rd_len rd_buf].
  change (failed dns_ok) with false. change (4 - 4) with 0. change (0 >? 1) with false.
  change (negb (0 =? 0)) with false. cbv iota.
  cbn [ds_err]. change (failed dns_ok) with false. cbv iota.
  repeat first
    [ rewrite H8 | rewrite H10
    | progress change (Z.to_nat 0) with 0%nat
    | progress cbn [records]
    | progress cbv beta iota delta [bind]
    | progress unfold say, between_sections
    | progress cbn [ds_err ds_r ds_len ds_name ds_buf ds_rdlength ds_comma ds_rr]
    | progress change (failed dns_ok) with false
    | progress change (0 >? 1) with false ].
  rewrite Htext. unfold emit. rewrite <- !app_assoc. cbn [app].
  replace (q + 12 + 4) with (zlength pkt) by lia.
  reflexivity.
Qed.

Lemma single_a_answer_message_witness :
  question_summary
    (write_dns_server_data true ip6_text
       ([0; 1; 129; 128; 0; 1; 0; 1; 0; 0; 0; 0]
          ++ (wire [[99; 111; 109]] ++ [0; 1; 0; 1])
          ++ [192; 12; 0; 1; 0; 1; 0; 0; 14; 16; 0; 4; 10; 0; 0; 1]) [])
  = Returns (dns_ok,
             zlength ([0; 1; 129; 128; 0; 1; 0; 1; 0; 0; 0; 0]
                        ++ (wire [[99; 111; 109]] ++ [0; 1; 0; 1])
                        ++ [192; 12; 0; 1; 0; 1; 0; 0; 14; 16; 0; 4; 10; 0; 0; 1]),
             5,
             [] ++ ["{"%string;
                    frag_question
                      (if to_uchar (Z.shiftr (129 * 256 + 128) 15) =? 0
                       then "q"%string else "r"%string)
                      (text_of (tl (dotted [[99; 111; 109]])));
                    frag_rc (Z.land (129 * 256 + 128) 15);
                    "{"%string;
                    frag_name "a" (inet_ntop4 10 0 0 1);
                    frag_ttl ((0 * 256 + 0) * 65536 + (14 * 256 + 16));
                    "]}"%string]).
Proof.
  apply (single_a_answer_message true ip6_text 0 1 129 128 [[99; 111; 109]] 0 1 0 1
           0 0 14 16 10 0 0 1 []).
  - repeat constructor; unfold label_ok; simpl; lia.
  - vm_compute; reflexivity.
Defined.
